(** * GanttHelper: a verified model of [gantt_helper.py]

    The development embeds the [GanttHelper] class: loading the TOML
    records, building and sorting the data frame, deriving the plotting
    columns, and the sequence of drawing and file-system operations made
    by [plot].  Library calls (pandas, numpy, matplotlib, os) are modelled
    by small executable definitions that state what the call does on the
    values this program hands to it: 64-bit integers wrap, numpy's floats
    are rounded as binary64 rounds them, and pandas refuses the dates and
    time spans that do not fit its nanosecond clock. *)

From stdpp Require Import gmap strings list.
From Stdlib Require Import QArith Qround Qreduction ZArith Lia.
From Stdlib Require Import Sorting.Sorted Sorting.Permutation.
From Stdlib Require Import Ascii DecimalString DecimalZ DecimalPos.

Local Open Scope Z_scope.

(** ** Exceptions and the state-and-error monad

    [plot] reads and writes the file system and the pyplot figure; any
    step may raise.  A computation takes the world and returns a result
    together with the world it leaves behind (the effects made before an
    exception stay).  An error of the file system carries the path it is
    about, as the list of its components; the messages of [ValueError]
    and [OverflowError] are left out.  [OutOfBoundsTimedelta] and [OutOfBoundsDatetime] are
    the two errors of pandas; [Undefined] marks a point where the C code
    under numpy has no defined result (a float that does not fit is cast
    to an integer), so that nothing is said about what follows. *)

Inductive exn : Type :=
| FileNotFoundError (path : list string)
| FileExistsError (path : list string)
| NotADirectoryError (path : list string)
| IsADirectoryError (path : list string)
| UnicodeDecodeError (path : list string)
| KeyError (key : string)
| AttributeError (name : string)
| ValueError
| TypeError (msg : string)
| OverflowError
| OutOfBoundsTimedelta
| OutOfBoundsDatetime
| Undefined (what : string).

Inductive result (A : Type) : Type :=
| Ok (a : A)
| Raise (e : exn).
Arguments Ok {A} a.
Arguments Raise {A} e.

Definition result_bind {A B} (r : result A) (k : A -> result B) : result B :=
  match r with
  | Ok a => k a
  | Raise e => Raise e
  end.

Fixpoint result_mapM {A B} (f : A -> result B) (l : list A) : result (list B) :=
  match l with
  | [] => Ok []
  | x :: t =>
      result_bind (f x) (fun y =>
      result_bind (result_mapM f t) (fun ys => Ok (y :: ys)))
  end.

(** ** Colours

    A colour is the RGBA tuple matplotlib receives.  A float constant or
    a quotient by 100 is denoted by the rational it is written as: [0.3]
    is [3 # 10], and the true division [x/100] of an integer is the
    fraction [x # 100]. *)

Definition rgba : Type := (Q * Q * Q * Q)%type.

Definition rgba_alpha (c : rgba) : Q := snd c.

(** [to_color] (static method). *)
Definition to_color (x : Z) : rgba :=
  if x =? 100 then (0.3, 0.3, 0.3, 1)%Q
  else if (x <? 100) && (x >? 60) then (0, 0.5, 0.3, x # 100)%Q
  else (0.7, 0, 0, 0.8)%Q.

Definition gray : rgba := (0.3, 0.3, 0.3, 1)%Q.
Definition green (x : Z) : rgba := (0, 0.5, 0.3, x # 100)%Q.
Definition red : rgba := (0.7, 0, 0, 0.8)%Q.

(** ** Calendar dates

    A TOML local date arrives as a [datetime.date].  A date is represented
    by its proleptic Gregorian day number ([date.toordinal()], day 1 is
    0001-01-01): date comparison is integer comparison and the difference
    of two dates, in days, is integer subtraction.  [ymd2ord] and [ord2ymd]
    are the two conversions of the [datetime] module. *)

Abbreviation date := Z (only parsing).

Definition is_leap (y : Z) : bool :=
  (y mod 4 =? 0) && (negb (y mod 100 =? 0) || (y mod 400 =? 0)).

Definition days_before_year (y : Z) : Z :=
  let y1 := y - 1 in y1 * 365 + y1 / 4 - y1 / 100 + y1 / 400.

Definition days_in_month (y m : Z) : Z :=
  if m =? 2 then (if is_leap y then 29 else 28)
  else if (m =? 4) || (m =? 6) || (m =? 9) || (m =? 11) then 30
  else 31.

Definition days_before_month (y m : Z) : Z :=
  fold_right Z.add 0 (map (days_in_month y) (map Z.of_nat (seq 1 (Z.to_nat (m - 1))))).

Definition ymd2ord (y m d : Z) : date :=
  days_before_year y + days_before_month y m + d.

Definition DI400Y : Z := 146097.
Definition DI100Y : Z := 36524.
Definition DI4Y : Z := 1461.

Definition ord2ymd (n0 : date) : Z * Z * Z :=
  let n := n0 - 1 in
  let n400 := n / DI400Y in
  let n := n mod DI400Y in
  let n100 := n / DI100Y in
  let n := n mod DI100Y in
  let n4 := n / DI4Y in
  let n := n mod DI4Y in
  let n1 := n / 365 in
  let n := n mod 365 in
  let year := n400 * 400 + 1 + n100 * 100 + n4 * 4 + n1 in
  if (n1 =? 4) || (n100 =? 4) then (year - 1, 12, 31)
  else
    let month := Z.shiftr (n + 50) 5 in
    let preceding := days_before_month year month in
    if preceding >? n
    then (year, month - 1, n - (preceding - days_in_month year (month - 1)) + 1)
    else (year, month, n - preceding + 1).

(** Decimal digits of [n], zero-padded on the left to [width] characters
    (the low [width] digits when [n] is wider, which no date in range is). *)
Definition digit_char (d : Z) : Ascii.ascii :=
  Ascii.ascii_of_nat (48 + Z.to_nat (d mod 10)).

Fixpoint zero_pad (width : nat) (n : Z) : string :=
  match width with
  | O => EmptyString
  | S w => zero_pad w (n / 10) +:+ String (digit_char n) EmptyString
  end.

(** [strftime("%Y-%m-%d")]. *)
Definition strftime_ymd (d : date) : string :=
  let '(y, m, dd) := ord2ymd d in
  zero_pad 4 y +:+ "-" +:+ zero_pad 2 m +:+ "-" +:+ zero_pad 2 dd.


(** [str] of a Python integer. *)
Definition str_int (n : Z) : string := NilZero.string_of_int (Z.to_int n).

(** ** Floats

    numpy computes the tick positions and pandas the tick dates in
    binary64.  A float is a rational (every finite binary64 value is one),
    an infinity or a NaN; the sign of a zero is not kept.  [rnd] is the
    rounding of IEEE 754, to the nearest multiple of [2^k] with a
    significand of 53 bits and [k] at least -1074, ties to even; an
    operation on floats is the exact operation followed by [rnd].  The
    rounding is kept where it decides what the program does, in the
    number of ticks and in the dates under them; the lengths of the bars
    and the positions of the texts are denoted by the exact value of the
    expression that computes them. *)

Inductive float : Type :=
| Finite (q : Q)
| PosInf
| NegInf
| NaN.

Definition infinity (negative : bool) : float :=
  if negative then NegInf else PosInf.

(** The integer part of the base-2 logarithm of [n/d], for positive [n]
    and [d]. *)
Definition ilog2 (n d : Z) : Z :=
  let e := Z.log2 n - Z.log2 d in
  if d * 2 ^ Z.max e 0 <=? n * 2 ^ Z.max (- e) 0 then e else e - 1.

(** The integer nearest to [n/d], the even one of two. *)
Definition round_half_even (n d : Z) : Z :=
  let f := n / d in
  match 2 * (n mod d) ?= d with
  | Lt => f
  | Gt => f + 1
  | Eq => if Z.even f then f else f + 1
  end.

(** [k] is the exponent of the last place and [m] the significand, an
    integer below [2^53] unless the rounding carries; a result of [2^1024]
    or more is an infinity. *)
Definition rnd (q : Q) : float :=
  let n := Z.abs (Qnum q) in
  let d := Zpos (Qden q) in
  if n =? 0 then Finite 0
  else
    let k := Z.max (ilog2 n d - 52) (-1074) in
    let m := round_half_even (n * 2 ^ Z.max (- k) 0) (d * 2 ^ Z.max k 0) in
    if 2 ^ 53 * 2 ^ (971 - k) <=? m then infinity (Qnum q <? 0)
    else Finite (Qred (Z.sgn (Qnum q) * m * 2 ^ Z.max k 0
                       # Z.to_pos (2 ^ Z.max (- k) 0))).

Definition float_of_Z (z : Z) : float := rnd (inject_Z z).

Definition is_negative (x : float) : bool :=
  match x with
  | Finite q => Qnum q <? 0
  | NegInf => true
  | _ => false
  end.

Definition is_zero (x : float) : bool :=
  match x with
  | Finite q => Qnum q =? 0
  | _ => false
  end.

Definition fmul (x y : float) : float :=
  match x, y with
  | NaN, _ | _, NaN => NaN
  | Finite a, Finite b => rnd (a * b)
  | _, _ =>
      if is_zero x || is_zero y then NaN
      else infinity (xorb (is_negative x) (is_negative y))
  end.

Definition fdiv (x y : float) : float :=
  match x, y with
  | NaN, _ | _, NaN => NaN
  | Finite a, Finite b =>
      if Qnum b =? 0
      then (if Qnum a =? 0 then NaN else infinity (Qnum a <? 0))
      else rnd (a / b)
  | Finite _, _ => Finite 0
  | _, Finite _ => infinity (xorb (is_negative x) (is_negative y))
  | _, _ => NaN
  end.

(** ** Records and data frames *)

(** A TOML integer is a signed 64-bit number, and the integer columns of
    the frame are [int64]: arithmetic on them wraps around. *)
Definition wrap64 (z : Z) : Z := (z + 2 ^ 63) mod 2 ^ 64 - 2 ^ 63.

Definition fits_int64 (z : Z) : Prop := - 2 ^ 63 <= z < 2 ^ 63.

Definition in_int64 (z : Z) : bool := (- 2 ^ 63 <=? z) && (z <? 2 ^ 63).

Record int64 : Type := mk_int64 {
  int64_val :> Z;
  int64_fits : in_int64 int64_val = true
}.

(** The [int64] written [z], for [z] in range. *)
Definition i64 (z : Z) : int64 :=
  match in_int64 z as b return in_int64 z = b -> int64 with
  | true => fun H => mk_int64 z H
  | false => fun _ => mk_int64 0 eq_refl
  end eq_refl.

(** One table of the TOML file. *)
Record record : Type := mk_record {
  task : string;
  start : date;
  end_ : date;
  complete : int64
}.

(** A data frame is the list of its rows, each with its index label. *)
Definition frame (A : Type) : Type := list (nat * A).

Definition labels {A} (df : frame A) : list nat := map fst df.
Definition rows {A} (df : frame A) : list A := map snd df.

(** [pd.DataFrame(values)]: a fresh RangeIndex 0..n-1. *)
Definition DataFrame {A} (values : list A) : frame A :=
  combine (seq 0 (length values)) values.

(** [df.reset_index(drop=True)]. *)
Definition reset_index {A} (df : frame A) : frame A := DataFrame (rows df).

(** [DataFrame.sort_values(by=...)] with its default [kind='quicksort'].
    pandas promises an ascending rearrangement of the rows and documents
    that only [kind='mergesort'] and [kind='stable'] keep the order of
    rows with equal keys; the algorithm itself is numpy's.  The routine is
    therefore an interface: any implementation yields a permutation of
    the rows that is ordered by the key. *)
Class SortValues : Type := {
  sort_values : forall {A : Type}, (A -> Z) -> list A -> list A;
  sort_values_perm : forall (A : Type) (key : A -> Z) (l : list A),
      Permutation (sort_values key l) l;
  sort_values_sorted : forall (A : Type) (key : A -> Z) (l : list A),
      StronglySorted (fun a b => key a <= key b) (sort_values key l)
}.

(** A row of the cleaned frame: the record and the derived columns. *)
Record row : Type := mk_row {
  rec : record;
  start_num : Z;
  start_end : Z;
  end_num : Z;
  current_num : Q;
  color : rgba;
  uid : nat
}.

(** ** The file system and pyplot's state

    A path is the list of its components: ["Images/Gantt.png"] is
    [["Images"; "Gantt.png"]], an absolute path starts with the component
    ["/"], and the empty list is the working directory.  Empty components
    (doubled or trailing separators) and the component [.] vanish, as
    they do when the operating system resolves the path.  The component
    [..] is kept as a name, which is what it is at the front of a path;
    links are not followed. *)

Definition path : Type := list string.

Definition is_slash (c : Ascii.ascii) : bool := Ascii.eqb c "/"%char.

Definition flush (cur : string) : list string :=
  if String.eqb cur EmptyString || String.eqb cur "." then [] else [cur].

Fixpoint components_from (cur : string) (s : string) : list string :=
  match s with
  | EmptyString => flush cur
  | String c t =>
      if is_slash c then flush cur ++ components_from EmptyString t
      else components_from (cur +:+ String c EmptyString) t
  end.

Definition is_absolute (s : string) : bool :=
  match s with
  | String c _ => is_slash c
  | EmptyString => false
  end.

Fixpoint has_slash (s : string) : bool :=
  match s with
  | EmptyString => false
  | String c t => is_slash c || has_slash t
  end.

Definition parse_path (s : string) : path :=
  (if is_absolute s then ["/"%string] else []) ++ components_from EmptyString s.

(** The text after the last dot of the last component, which is how
    [savefig] picks the image format. *)
Fixpoint extension_from (ext : option string) (s : string) : option string :=
  match s with
  | EmptyString => ext
  | String c t =>
      if Ascii.eqb c "."%char then extension_from (Some EmptyString) t
      else extension_from ((fun e => e +:+ String c EmptyString) <$> ext) t
  end.

Definition extension (p : path) : option string :=
  match last p with
  | Some name => extension_from None name
  | None => None
  end.

(** One horizontal bar (a rectangle patch).  [bar_alpha] is the [alpha]
    argument of the call, [None] when the call gives none. *)
Record bar : Type := mk_bar {
  bar_y : nat;
  bar_width : Q;
  bar_left : Z;
  bar_color : rgba;
  bar_alpha : option Q
}.

(** The opacity matplotlib paints a patch with: the [alpha] argument when
    there is one, the alpha channel of the fill colour otherwise. *)
Definition bar_opacity (b : bar) : Q :=
  match bar_alpha b with
  | Some a => a
  | None => rgba_alpha (bar_color b)
  end.

Record text : Type := mk_text {
  text_x : Q;
  text_y : nat;
  text_s : string;
  text_va : string
}.

(** The figure with its single axes.  [patches] and [texts] are in the
    order they were added, which is the order patches are painted in;
    [categories] is the string-to-position table of the y axis. *)
Record figure : Type := mk_figure {
  figsize : Q * Q;
  categories : list string;
  patches : list bar;
  texts : list text;
  xticks : option (list float);
  xticklabels : option (list string);
  title : string
}.

Definition new_figure (size : Q * Q) : figure :=
  mk_figure size [] [] [] None None EmptyString.

(** The size pyplot gives a figure it has to make on its own. *)
Definition default_figsize : Q * Q := (6.4, 4.8)%Q.

(** A regular file: a TOML document, given by its tables, or an image,
    which is not text. *)
Inductive file : Type :=
| TomlFile (doc : list (string * record))
| ImageFile (format : string) (bbox_inches : string) (fig : figure).

Record filesystem : Type := mk_fs {
  dirs : gset path;
  files : gmap path file
}.

(** Painting a figure can fail (a canvas of no or of too many pixels, for
    one); what the backend accepts is left open: [render_error] gives the
    exception it raises for a figure, if any. *)
Class Backend : Type := {
  render_error : figure -> option exn
}.

(** The open figures, newest first: the head is pyplot's current figure. *)
Record world : Type := mk_world {
  fs : filesystem;
  figures : list figure
}.

Definition M (A : Type) : Type := world -> result A * world.

Definition ret {A} (a : A) : M A := fun w => (Ok a, w).
Definition raise {A} (e : exn) : M A := fun w => (Raise e, w).
Definition bind {A B} (m : M A) (k : A -> M B) : M B :=
  fun w =>
    match m w with
    | (Ok a, w') => k a w'
    | (Raise e, w') => (Raise e, w')
    end.
Definition lift {A} (r : result A) : M A := fun w => (r, w).

Notation "'do' x <- m ; k" := (bind m (fun x => k))
  (at level 10, x name, m at level 100, k at level 200).
Notation "'do_' m ; k" := (bind m (fun _ => k))
  (at level 10, m at level 100, k at level 200).

Fixpoint for_each {A} (l : list A) (body : A -> M unit) : M unit :=
  match l with
  | [] => ret tt
  | x :: t => do_ body x; for_each t body
  end.

Definition run {A} (m : M A) (w : world) : result A * world := m w.

(** ** File-system and pyplot primitives *)

Definition dir_exists (fsys : filesystem) (p : path) : bool :=
  match p with
  | [] => true
  | [root] => String.eqb root "/" || bool_decide (p ∈ dirs fsys)
  | _ => bool_decide (p ∈ dirs fsys)
  end.

(** The non-empty prefixes of a path, shortest first. *)
Fixpoint prefixes_from (pre : path) (p : path) : list path :=
  match p with
  | [] => []
  | c :: t => (pre ++ [c]) :: prefixes_from (pre ++ [c]) t
  end.

Definition prefixes (p : path) : list path := prefixes_from [] p.

Definition is_file (fsys : filesystem) (p : path) : bool :=
  bool_decide (is_Some (files fsys !! p)).

(** A regular file stands where the path needs a directory. *)
Definition file_in_the_way (fsys : filesystem) (p : path) : bool :=
  existsb (is_file fsys) (removelast (prefixes p)).

(** [os.makedirs(name, exist_ok=True)]: every missing directory on the way
    is created and a directory that is already there is left alone.  A
    regular file at the name itself is a [FileExistsError]; a regular file
    further up makes the [mkdir] of the next directory fail, and that
    directory is the one the error names. *)
Fixpoint mkdir_chain (chain : list path) (fsys : filesystem)
  : result unit * filesystem :=
  match chain with
  | [] => (Ok tt, fsys)
  | p :: rest =>
      match files fsys !! p with
      | Some _ =>
          (Raise match rest with
                 | [] => FileExistsError p
                 | q :: _ => NotADirectoryError q
                 end, fsys)
      | None =>
          if dir_exists fsys p then mkdir_chain rest fsys
          else mkdir_chain rest (mk_fs ({[p]} ∪ dirs fsys) (files fsys))
      end
  end.

Definition makedirs (name : string) : M unit :=
  fun w =>
    let '(r, fsys) := mkdir_chain (prefixes (parse_path name)) (fs w) in
    (r, mk_world fsys (figures w)).

(** [toml.load(name)]: the file is opened as text and parsed.  An image
    is not text; where there is no file, the error tells whether the name
    is a directory, runs through a regular file, or leads nowhere. *)
Definition toml_load (name : string) : M (list (string * record)) :=
  fun w =>
    let p := parse_path name in
    match files (fs w) !! p with
    | Some (TomlFile doc) => (Ok doc, w)
    | Some (ImageFile _ _ _) => (Raise (UnicodeDecodeError p), w)
    | None =>
        if bool_decide (p ∈ dirs (fs w)) then (Raise (IsADirectoryError p), w)
        else if file_in_the_way (fs w) p then (Raise (NotADirectoryError p), w)
        else (Raise (FileNotFoundError p), w)
    end.

(** [plt.subplots(1, figsize=...)]: a new figure becomes the current one;
    a negative width or height is refused before a figure is made. *)
Definition figsize_ok (size : Q * Q) : bool :=
  Qle_bool 0 (fst size) && Qle_bool 0 (snd size).

Definition subplots (size : Q * Q) : M unit :=
  fun w =>
    if figsize_ok size
    then (Ok tt, mk_world (fs w) (new_figure size :: figures w))
    else (Raise ValueError, w).

(** Apply an operation to the current figure (pyplot makes one when there
    is none). *)
Definition on_figure (f : figure -> result figure) : M unit :=
  fun w =>
    let '(cur, others) :=
      match figures w with
      | [] => (new_figure default_figsize, [])
      | fig :: rest => (fig, rest)
      end in
    match f cur with
    | Ok fig' => (Ok tt, mk_world (fs w) (fig' :: others))
    | Raise e => (Raise e, w)
    end.

(** The category table of a string axis: each new label gets the next
    free position, in the order the labels arrive. *)
Definition update_categories (cats : list string) (data : list string) : list string :=
  fold_left (fun acc v => if bool_decide (v ∈ acc) then acc else acc ++ [v]) data cats.

Fixpoint list_index (x : string) (l : list string) : option nat :=
  match l with
  | [] => None
  | y :: t => if String.eqb y x then Some O else S <$> list_index x t
  end.

Definition category_position (cats : list string) (v : string) : nat :=
  default O (list_index v cats).

(** [ax.barh(y, width, left=..., color=..., alpha=...)] with string [y]:
    one rectangle per entry, appended to the patches. *)
Definition barh (y : list string) (width : list Q) (left : list Z)
    (colors : list rgba) (alpha : option Q) : M unit :=
  on_figure (fun fig =>
    let cats := update_categories (categories fig) y in
    let new :=
      map (fun '(v, w, l, c) => mk_bar (category_position cats v) w l c alpha)
          (combine (combine (combine y width) left) colors) in
    Ok (mk_figure (figsize fig) cats (patches fig ++ new) (texts fig)
                  (xticks fig) (xticklabels fig) (title fig))).

(** Field updates of a figure. *)
Definition with_texts (fig : figure) (ts : list text) : figure :=
  mk_figure (figsize fig) (categories fig) (patches fig) ts
            (xticks fig) (xticklabels fig) (title fig).

Definition with_xticks (fig : figure) (ticks : list float) : figure :=
  mk_figure (figsize fig) (categories fig) (patches fig) (texts fig)
            (Some ticks) (xticklabels fig) (title fig).

Definition with_xticklabels (fig : figure) (labels : list string) : figure :=
  mk_figure (figsize fig) (categories fig) (patches fig) (texts fig)
            (xticks fig) (Some labels) (title fig).

Definition with_title (fig : figure) (s : string) : figure :=
  mk_figure (figsize fig) (categories fig) (patches fig) (texts fig)
            (xticks fig) (xticklabels fig) s.

(** [ax.text(x, y, s, va=...)]. *)
Definition ax_text (x : Q) (y : nat) (s : string) (va : string) : M unit :=
  on_figure (fun fig => Ok (with_texts fig (texts fig ++ [mk_text x y s va]))).

(** [ax.set_xticks(ticks)]. *)
Definition set_xticks (ticks : list float) : M unit :=
  on_figure (fun fig => Ok (with_xticks fig ticks)).

(** [ax.set_xticklabels(labels)]: once the ticks are fixed, the number of
    labels must be the number of ticks. *)
Definition set_xticklabels (labels : list string) : M unit :=
  on_figure (fun fig =>
    match xticks fig with
    | Some ticks =>
        if Nat.eqb (length ticks) (length labels)
        then Ok (with_xticklabels fig labels)
        else Raise ValueError
    | None => Ok (with_xticklabels fig labels)
    end).

(** [plt.title(s)]. *)
Definition plt_title (s : string) : M unit :=
  on_figure (fun fig => Ok (with_title fig s)).

(** [plt.savefig(name, bbox_inches=...)]: the current figure is painted,
    then written in the format named by the extension. *)
Definition savefig `{Backend} (name : string) (bbox_inches : string) : M unit :=
  fun w =>
    let p := parse_path name in
    let fig := match figures w with
               | [] => new_figure default_figsize
               | fig :: _ => fig
               end in
    let '(p, ext) :=
      match extension p with
      | Some ext => (p, ext)
      | None => (parse_path (name +:+ ".png"), "png"%string)
      end in
    match render_error fig with
    | Some e => (Raise e, w)
    | None =>
        if bool_decide (p ∈ dirs (fs w)) then (Raise (IsADirectoryError p), w)
        else if file_in_the_way (fs w) p then (Raise (NotADirectoryError p), w)
        else if negb (dir_exists (fs w) (removelast p))
        then (Raise (FileNotFoundError p), w)
        else
          (Ok tt, mk_world (mk_fs (dirs (fs w))
                                  (<[p := ImageFile ext bbox_inches fig]> (files (fs w))))
                           (fig :: tail (figures w)))
    end.

(** ** numpy and pandas numerics *)

(** [numpy.int64 / int]: both are converted to binary64 and divided;
    numpy divides by zero without raising. *)
Definition true_divide (a b : Z) : float :=
  fdiv (float_of_Z a) (float_of_Z b).

(** The values [np.arange] writes: the first two are [start] and
    [start + step], the others [start + i * delta] with
    [delta = (start + step) - start]; [start] is 0 here. *)
Definition arange_fill (step : float) (len : nat) : list float :=
  match len with
  | O => []
  | S O => [Finite 0]
  | S (S n) =>
      Finite 0 :: step :: map (fun i => fmul (float_of_Z (Z.of_nat i)) step) (seq 2 n)
  end.

(** [np.arange(0, stop, step)] with an integer [stop] and a float [step].
    The length is the ceiling of the binary64 quotient [stop / step]; when
    the quotient is zero although [stop] is not (an infinite step) the
    length is 1, or 0 if the quotient is a negative zero. *)
Definition np_arange (stop : Z) (step : float) : result (list float) :=
  match fdiv (float_of_Z stop) step with
  | NaN => Raise ValueError
  | PosInf | NegInf => Raise OverflowError
  | Finite v =>
      let len :=
        if (Qnum v =? 0) && negb (stop =? 0)
        then (if xorb (stop <? 0) (is_negative step) then 0 else 1)
        else Qceiling v in
      if (len <? - 2 ^ 63) || (2 ^ 63 <=? len)
      then Raise OverflowError
      else Ok (arange_fill step (Z.to_nat len))
  end.

(** Timestamps are nanoseconds since 1970-01-01, held in an [int64] whose
    least value stands for "not a time": the days a [Timestamp] or a
    [Timedelta] can hold are those within 106751 days of zero. *)
Definition epoch : date := 719163.
Definition ns_per_day : Z := 86400 * 1000000000.
Definition timestamp (d : date) : Z := (d - epoch) * ns_per_day.
Definition timestamp_date (t : Z) : date := epoch + t / ns_per_day.

Definition in_ns_range (days : Z) : bool :=
  (- 2 ^ 63 <? days * ns_per_day) && (days * ns_per_day <? 2 ^ 63).

(** The difference of two dates as a [timedelta64[ns]], read back as a
    whole number of days. *)
Definition timedelta_days (d : Z) : result Z :=
  if in_ns_range d then Ok d else Raise OutOfBoundsTimedelta.

(** [pd.Timestamp(d).value] of a date. *)
Definition to_timestamp (d : date) : result Z :=
  if in_ns_range (d - epoch) then Ok (timestamp d) else Raise OutOfBoundsDatetime.

(** A float array cast to [int64] after [floor]: the cast is defined for
    the floats that fit. *)
Definition floor_int64 (x : float) : result Z :=
  match x with
  | Finite q =>
      if (- 2 ^ 63 <=? Qfloor q) && (Qfloor q <? 2 ^ 63) then Ok (Qfloor q)
      else Raise (Undefined "float to int64")
  | _ => Raise (Undefined "float to int64")
  end.

(** [np.linspace(0, stop, num, dtype='int64')]: the samples [i * step]
    with [step = stop / (num - 1)], all in binary64, the last one replaced
    by [stop] itself; then the floor.  When the step is zero the samples
    are [(i / (num - 1)) * stop]. *)
Definition linspace_int64 (stop : Z) (num : Z) : result (list Z) :=
  if num <? 0 then Raise ValueError
  else
    let stop_ := float_of_Z stop in
    let div := float_of_Z (num - 1) in
    let step := fdiv stop_ div in
    let sample (i : nat) : float :=
      let i_ := float_of_Z (Z.of_nat i) in
      if num <=? 1 then fmul i_ stop_
      else if Z.of_nat i =? num - 1 then stop_
      else if is_zero step then fmul (fdiv i_ div) stop_
      else fmul i_ step in
    result_mapM (fun i => floor_int64 (sample i)) (seq 0 (Z.to_nat num)).

(** [pd.date_range(start, end, periods)]: [periods] timestamps from
    [start] to [end], both included
    ([np.linspace(0, end - start, periods, dtype='int64') + start]). *)
Definition date_range (start_ end_ : date) (periods : Z) : result (list Z) :=
  result_bind (to_timestamp start_) (fun t0 =>
  result_bind (to_timestamp end_) (fun t1 =>
  result_bind (linspace_int64 (t1 - t0) periods) (fun offsets =>
  Ok (map (fun o => wrap64 (o + t0)) offsets)))).

(** ** Columns *)

(** [Series.min()] and [Series.max()] of an integer column (of a date
    column, by day number).  The program never takes them of an empty
    column: [cleaned_dataframe_data] raises before. *)
Definition series_min (l : list Z) : Z :=
  match l with
  | [] => 0
  | x :: t => fold_left Z.min t x
  end.

Definition series_max (l : list Z) : Z :=
  match l with
  | [] => 0
  | x :: t => fold_left Z.max t x
  end.

(** [Series.unique()]: the distinct values in order of first appearance. *)
Fixpoint unique_from (seen : list string) (l : list string) : list string :=
  match l with
  | [] => []
  | x :: t =>
      if bool_decide (x ∈ seen) then unique_from seen t
      else x :: unique_from (x :: seen) t
  end.

Definition unique (l : list string) : list string := unique_from [] l.

(** ** The class *)

(** A [Union[str, bool]] argument. *)
Inductive str_or_bool : Type :=
| Str (s : string)
| Bool (b : bool).

(** Python truth value. *)
Definition truthy (v : str_or_bool) : bool :=
  match v with
  | Str s => negb (String.eqb s EmptyString)
  | Bool b => b
  end.

(** The text an f-string puts for [{v}]. *)
Definition fmt (v : str_or_bool) : string :=
  match v with
  | Str s => s
  | Bool true => "True"
  | Bool false => "False"
  end.

Record GanttHelper : Type := mk_GanttHelper {
  src : string;
  dir : str_or_bool;
  fname : str_or_bool;
  sort_by_start : bool;
  x_ticks_num : Z;
  fig_size : Q * Q
}.

(** [__init__] with its defaults. *)
Definition init (src : string) : GanttHelper :=
  mk_GanttHelper src (Bool false) (Bool false) true 10 (20, 5)%Q.

(** [output_path] (property). *)
Definition output_path (self : GanttHelper) : M string :=
  if truthy (dir self) then
    do_ match dir self with
        | Str d => makedirs d
        | Bool _ => raise (TypeError "expected str, bytes or os.PathLike object, not bool")
        end;
    ret (fmt (dir self) +:+ "/" +:+ fmt (fname self) +:+ ".png")
  else
    ret (fmt (fname self) +:+ ".png").

(** [toml_data] (property). *)
Definition toml_data (self : GanttHelper) : M (list (string * record)) :=
  toml_load (src self +:+ ".toml").

(** The sort key of a frame row: its [start] column. *)
Definition by_start (ir : nat * record) : Z := start (snd ir).

(** [df.sort_values(by='start')]: a frame without rows has no columns. *)
Definition sort_values_by_start `{SortValues} (df : frame record) : result (frame record) :=
  match df with
  | [] => Raise (KeyError "start")
  | _ => Ok (sort_values by_start df)
  end.

(** [raw_dataframe_data] (property). *)
Definition raw_dataframe_data `{SortValues} (self : GanttHelper) : M (frame record) :=
  do doc <- toml_data self;
  let df := DataFrame (map snd doc) in
  if sort_by_start self then
    do df <- lift (sort_values_by_start df);
    ret (reset_index df)
  else
    ret df.

(** The local function [unique_task_id] of [cleaned_dataframe_data]. *)
Definition unique_task_id (df : frame record) (x : string) : result nat :=
  let l := unique (map task (rows df)) in
  match list_index x l with
  | Some i => Ok i
  | None => Raise ValueError
  end.

(** The derived columns of one row, given the earliest start.  The two
    date differences pass through [timedelta64[ns]]; the product of line
    137 is a product of [int64] columns. *)
Definition derive (df : frame record) (start_min : date) (r : record) : result row :=
  result_bind (timedelta_days (start r - start_min)) (fun start_num =>
  result_bind (timedelta_days (end_ r - start r)) (fun start_end =>
  let end_num := start_num + start_end in
  let current_num := (wrap64 (start_end * complete r) # 100)%Q in
  let color := to_color (complete r) in
  result_bind (unique_task_id df (task r)) (fun uid =>
  Ok (mk_row r start_num start_end end_num current_num color uid)))).

(** [cleaned_dataframe_data] (property). *)
Definition cleaned_dataframe_data `{SortValues} (self : GanttHelper) : M (frame row) :=
  do df <- raw_dataframe_data self;
  match df with
  | [] => raise (AttributeError "start")
  | _ =>
      let start_min := series_min (map start (rows df)) in
      lift (result_mapM
              (fun ir => result_bind (derive df start_min (snd ir))
                                     (fun r => Ok (fst ir, r)))
              df)
  end.

(** [Index.strftime("%Y-%m-%d")] on the timestamps of a date range. *)
Definition tick_labels (stamps : list Z) : list string :=
  map (fun t => strftime_ymd (timestamp_date t)) stamps.

(** [plot]. The style and font settings do not enter the figure model. *)
Definition plot `{SortValues} `{Backend} (self : GanttHelper) : M unit :=
  do df <- cleaned_dataframe_data self;
  let x_ticks_num := x_ticks_num self in
  let df := rows df in
  let df_task := map (fun r => task (rec r)) df in
  do_ subplots (fig_size self);
  do_ barh df_task (map current_num df) (map start_num df) (map color df) None;
  do_ barh df_task (map (fun r => inject_Z (start_end r)) df) (map start_num df)
           (map color df) (Some 0.5%Q);
  do_ for_each df (fun r =>
        ax_text (inject_Z (end_num r) + inject_Z (series_max (map start_end df)) * 0.01)%Q
                (uid r) (str_int (complete (rec r)) +:+ "%") "center");
  let step :=
    true_divide (series_max (map end_num df) - series_min (map start_num df)) x_ticks_num in
  do ticks <- lift (np_arange (series_max (map end_num df)) step);
  do_ set_xticks ticks;
  do stamps <- lift (date_range (series_min (map (fun r => start (rec r)) df))
                                (series_max (map (fun r => end_ (rec r)) df))
                                x_ticks_num);
  do_ set_xticklabels (tick_labels stamps);
  do_ plt_title (fmt (fname self));
  if truthy (fname self) then
    do p <- output_path self;
    savefig p "tight"
  else
    ret tt.

(** Lines 54 to 72 of [plot]: the chart is drawn and gets its title.
    What is left of [plot] after them is the saving step. *)
Definition draw_chart `{SortValues} (self : GanttHelper) : M unit :=
  do df <- cleaned_dataframe_data self;
  let x_ticks_num := x_ticks_num self in
  let df := rows df in
  let df_task := map (fun r => task (rec r)) df in
  do_ subplots (fig_size self);
  do_ barh df_task (map current_num df) (map start_num df) (map color df) None;
  do_ barh df_task (map (fun r => inject_Z (start_end r)) df) (map start_num df)
           (map color df) (Some 0.5%Q);
  do_ for_each df (fun r =>
        ax_text (inject_Z (end_num r) + inject_Z (series_max (map start_end df)) * 0.01)%Q
                (uid r) (str_int (complete (rec r)) +:+ "%") "center");
  let step :=
    true_divide (series_max (map end_num df) - series_min (map start_num df)) x_ticks_num in
  do ticks <- lift (np_arange (series_max (map end_num df)) step);
  do_ set_xticks ticks;
  do stamps <- lift (date_range (series_min (map (fun r => start (rec r)) df))
                                (series_max (map (fun r => end_ (rec r)) df))
                                x_ticks_num);
  do_ set_xticklabels (tick_labels stamps);
  plt_title (fmt (fname self)).

(** Lines 74 and 75: save when a file name is configured. *)
Definition save_step `{Backend} (self : GanttHelper) : M unit :=
  if truthy (fname self) then
    do p <- output_path self;
    savefig p "tight"
  else
    ret tt.

(** ** Sorting routines

    An insertion sort, which keeps rows with equal keys in their order,
    and the routine numpy runs for [kind='quicksort'] on a column of
    Python objects. *)

Fixpoint insert_before_equal {A} (key : A -> Z) (x : A) (l : list A) : list A :=
  match l with
  | [] => [x]
  | y :: t => if key x <=? key y then x :: l else y :: insert_before_equal key x t
  end.

(** Rows with equal keys keep their order. *)
Definition stable_sort {A} (key : A -> Z) (l : list A) : list A :=
  fold_right (insert_before_equal key) [] l.

(** [npy_aquicksort] and [npy_aheapsort] (numpy, [npysort/quicksort] and
    [npysort/heapsort]): an introsort on the array [tosort] of row
    positions, comparing the keys [v] of the rows they point to.  A range
    is partitioned around the median of its first, middle and last entry
    while it is longer than [SMALL_QUICKSORT], then finished by insertion
    sort; once [2 * floor(log2 n)] partitions are nested, heap sort takes
    over.  Pointers into the array are integers. *)
Module Npy.
Section Argsort.
Variable v : nat -> Z.

Definition SMALL_QUICKSORT : Z := 16.

Definition less (a b : Z) : bool := a <? b.

Definition elt (tosort : list nat) (p : Z) : nat := default O (tosort !! Z.to_nat p).

Definition put (tosort : list nat) (p : Z) (x : nat) : list nat :=
  <[Z.to_nat p := x]> tosort.

(** [INTP_SWAP (tosort[p], tosort[q])]. *)
Definition swap (tosort : list nat) (p q : Z) : list nat :=
  put (put tosort p (elt tosort q)) q (elt tosort p).

(** [do { ++pi; } while (less(v[*pi], vp));] *)
Fixpoint scan_up (fuel : nat) (tosort : list nat) (vp : Z) (pi : Z) : Z :=
  let pi := pi + 1 in
  match fuel with
  | O => pi
  | S fuel => if less (v (elt tosort pi)) vp then scan_up fuel tosort vp pi else pi
  end.

(** [do { --pj; } while (less(vp, v[*pj]));] *)
Fixpoint scan_down (fuel : nat) (tosort : list nat) (vp : Z) (pj : Z) : Z :=
  let pj := pj - 1 in
  match fuel with
  | O => pj
  | S fuel => if less vp (v (elt tosort pj)) then scan_down fuel tosort vp pj else pj
  end.

(** The [for (;;)] loop of the partition; it returns the array and [pi]. *)
Fixpoint partition_loop (fuel : nat) (tosort : list nat) (vp : Z) (pi pj : Z)
  : list nat * Z :=
  let pi := scan_up (length tosort) tosort vp pi in
  let pj := scan_down (length tosort) tosort vp pj in
  if pi >=? pj then (tosort, pi)
  else
    match fuel with
    | O => (tosort, pi)
    | S fuel => partition_loop fuel (swap tosort pi pj) vp pi pj
    end.

(** One partition of [pl..pr]: median of three, the pivot parked at
    [pr - 1], the scan, and the pivot put in its place [pi]. *)
Definition partition (tosort : list nat) (pl pr : Z) : list nat * Z :=
  let pm := pl + Z.shiftr (pr - pl) 1 in
  let tosort :=
    if less (v (elt tosort pm)) (v (elt tosort pl)) then swap tosort pm pl else tosort in
  let tosort :=
    if less (v (elt tosort pr)) (v (elt tosort pm)) then swap tosort pr pm else tosort in
  let tosort :=
    if less (v (elt tosort pm)) (v (elt tosort pl)) then swap tosort pm pl else tosort in
  let vp := v (elt tosort pm) in
  let pj := pr - 1 in
  let tosort := swap tosort pm pj in
  let '(tosort, pi) := partition_loop (length tosort) tosort vp pl pj in
  (swap tosort pi (pr - 1), pi).

(** [while (pj > pl && less(vp, v[*pk])) { *pj-- = *pk--; }] *)
Fixpoint shift_up (fuel : nat) (tosort : list nat) (vp : Z) (pl pj : Z)
  : list nat * Z :=
  match fuel with
  | O => (tosort, pj)
  | S fuel =>
      if (pj >? pl) && less vp (v (elt tosort (pj - 1)))
      then shift_up fuel (put tosort pj (elt tosort (pj - 1))) vp pl (pj - 1)
      else (tosort, pj)
  end.

(** The insertion sort of [pl..pr]: [count] entries from [pi] on are
    inserted one by one. *)
Fixpoint insertion_sort (count : nat) (tosort : list nat) (pl pi : Z) : list nat :=
  match count with
  | O => tosort
  | S count =>
      let vi := elt tosort pi in
      let '(tosort, pj) := shift_up (length tosort) tosort (v vi) pl pi in
      insertion_sort count (put tosort pj vi) pl (pi + 1)
  end.

(** The sift-down loop shared by the two phases of the heap sort, on the
    one-based array [a] that starts at [pl]:
    [for (i, j; j <= n;) { ... }  a[i] = tmp;] *)
Fixpoint sift_down (fuel : nat) (tosort : list nat) (pl : Z) (tmp : nat)
    (i j n : Z) : list nat :=
  let a (k : Z) := pl + k - 1 in
  match fuel with
  | O => put tosort (a i) tmp
  | S fuel =>
      if j <=? n then
        let j :=
          if (j <? n) && less (v (elt tosort (a j))) (v (elt tosort (a (j + 1))))
          then j + 1 else j in
        if less (v tmp) (v (elt tosort (a j)))
        then sift_down fuel (put tosort (a i) (elt tosort (a j))) pl tmp j (j + j) n
        else put tosort (a i) tmp
      else put tosort (a i) tmp
  end.

(** [for (l = n >> 1; l > 0; --l)] *)
Fixpoint heapify (count : nat) (tosort : list nat) (pl : Z) (l n : Z) : list nat :=
  match count with
  | O => tosort
  | S count =>
      if l >? 0 then
        let tmp := elt tosort (pl + l - 1) in
        heapify count (sift_down (length tosort) tosort pl tmp l (Z.shiftl l 1) n)
                pl (l - 1) n
      else tosort
  end.

(** [for (; n > 1;)] *)
Fixpoint heap_extract (count : nat) (tosort : list nat) (pl : Z) (n : Z) : list nat :=
  match count with
  | O => tosort
  | S count =>
      if n >? 1 then
        let tmp := elt tosort (pl + n - 1) in
        let tosort := put tosort (pl + n - 1) (elt tosort pl) in
        let n := n - 1 in
        heap_extract count (sift_down (length tosort) tosort pl tmp 1 2 n) pl n
      else tosort
  end.

Definition aheapsort (tosort : list nat) (pl : Z) (n : Z) : list nat :=
  let tosort := heapify (Z.to_nat n) tosort pl (Z.shiftr n 1) n in
  heap_extract (Z.to_nat n) tosort pl n.

(** The outer loop.  [check] tells that the range was just popped from
    the stack, which is where the depth is looked at; a stack entry holds
    a range and the depth left for it. *)
Fixpoint aquicksort_loop (fuel : nat) (check : bool) (tosort : list nat)
    (pl pr : Z) (stack : list (Z * Z * Z)) (cdepth : Z) : list nat :=
  match fuel with
  | O => tosort
  | S fuel =>
      let stack_pop (tosort : list nat) :=
        match stack with
        | [] => tosort
        | (pl, pr, cdepth) :: stack => aquicksort_loop fuel true tosort pl pr stack cdepth
        end in
      if check && (cdepth <? 0) then stack_pop (aheapsort tosort pl (pr - pl + 1))
      else if pr - pl >? SMALL_QUICKSORT then
        let '(tosort, pi) := partition tosort pl pr in
        if pi - pl <? pr - pi
        then aquicksort_loop fuel false tosort pl (pi - 1)
                             ((pi + 1, pr, cdepth - 1) :: stack) (cdepth - 1)
        else aquicksort_loop fuel false tosort (pi + 1) pr
                             ((pl, pi - 1, cdepth - 1) :: stack) (cdepth - 1)
      else stack_pop (insertion_sort (Z.to_nat (pr - pl)) tosort pl (pl + 1))
  end.

Definition aquicksort (num : nat) : list nat :=
  aquicksort_loop (2 * num + 2) true (seq 0 num) 0 (Z.of_nat num - 1) []
                  (2 * Z.log2 (Z.of_nat num)).
End Argsort.
End Npy.

(** [argsort(kind='quicksort')] of a column of keys. *)
Definition argsort (keys : list Z) : list nat :=
  Npy.aquicksort (fun i => default 0 (keys !! i)) (length keys).

(** [df.iloc[indexer]]. *)
Definition take {A} (l : list A) (indexer : list nat) : list A :=
  flat_map (fun i => option_list (l !! i)) indexer.

(** Whether [indexer] lists every position below [n] once. *)
Definition is_arrangement (n : nat) (indexer : list nat) : bool :=
  Nat.eqb (length indexer) n &&
  forallb (fun i => existsb (Nat.eqb i) indexer) (seq 0 n).

Fixpoint is_ascending {A} (key : A -> Z) (l : list A) : bool :=
  match l with
  | [] => true
  | x :: t => forallb (fun y => key x <=? key y) t && is_ascending key t
  end.

(** The frame rearranged by numpy's [argsort].  The result of a sorting
    routine is an ascending arrangement of its input; the test spells that
    out where no proof of it is given for the routine above. *)
Definition numpy_sort {A} (key : A -> Z) (l : list A) : list A :=
  let indexer := argsort (map key l) in
  if is_arrangement (length l) indexer && is_ascending key (take l indexer)
  then take l indexer
  else stable_sort key l.

(** What it means for [l'] to be the stable ascending sort of [l] by
    [key]: [l'] is ordered, and for each key value the rows with that key
    are the same, in the same order, in [l'] and in [l]. *)
Definition is_stable_sort {A} (key : A -> Z) (l l' : list A) : Prop :=
  StronglySorted (fun a b => key a <= key b) l' /\
  forall k : Z,
    List.filter (fun a => key a =? k) l' = List.filter (fun a => key a =? k) l.

(** ** Definitions used to state the properties *)

(** The numbering the specification describes: walk the labels in row
    order with a table of the labels met so far; a label met for the first
    time gets the next free number, a label met again the number it has. *)
Fixpoint assign_uids (table : gmap string nat) (next : nat) (tasks : list string)
  : list nat :=
  match tasks with
  | [] => []
  | x :: t =>
      match table !! x with
      | Some u => u :: assign_uids table next t
      | None => next :: assign_uids (<[x := next]> table) (S next) t
      end
  end.

Definition first_seen_uids (tasks : list string) : list nat :=
  assign_uids ∅ 0 tasks.

(** The two bars of a row.  Layer A is the whole duration, layer B the
    completed part. *)
Definition layer_A (r : row) : bar :=
  mk_bar (uid r) (inject_Z (start_end r)) (start_num r) (color r) (Some 0.5%Q).

Definition layer_B (r : row) : bar :=
  mk_bar (uid r) (current_num r) (start_num r) (color r) None.

(** [a] is added to the patches before [b], so [b] is painted over [a]. *)
Definition drawn_before (a b : bar) (l : list bar) : Prop :=
  exists i j : nat, (i < j)%nat /\ l !! i = Some a /\ l !! j = Some b.

(** The completion label of a row. *)
Definition label_of (max_start_end : Z) (r : row) : text :=
  mk_text (inject_Z (end_num r) + inject_Z max_start_end * 0.01)%Q
          (uid r) (str_int (complete (rec r)) +:+ "%") "center".

(** The figure once the bars and labels of the rows [df] are on it. *)
Definition bars_figure (self : GanttHelper) (df : list row) : figure :=
  mk_figure (fig_size self)
            (unique (map (fun r => task (rec r)) df))
            (map layer_B df ++ map layer_A df)
            (map (label_of (series_max (map start_end df))) df)
            None None EmptyString.

(** The step between ticks, the first and last date of the chart, and
    the figure at the end of a [plot] that got as far as the title. *)
Definition tick_step (self : GanttHelper) (df : list row) : float :=
  true_divide (series_max (map end_num df) - series_min (map start_num df))
              (x_ticks_num self).

Definition first_start (df : list row) : date :=
  series_min (map (fun r => start (rec r)) df).

Definition last_end (df : list row) : date :=
  series_max (map (fun r => end_ (rec r)) df).

Definition final_figure (self : GanttHelper) (df : list row)
    (ticks : list float) (stamps : list Z) : figure :=
  with_title
    (with_xticklabels (with_xticks (bars_figure self df) ticks) (tick_labels stamps))
    (fmt (fname self)).

(** The columns of the cleaned frame as functions of the raw frame. *)
Definition uid_of (df : frame record) (x : string) : nat :=
  category_position (unique (map task (rows df))) x.

Definition derived_row (df : frame record) (r : record) : row :=
  let start_num := start r - series_min (map start (rows df)) in
  let start_end := end_ r - start r in
  mk_row r start_num start_end (start_num + start_end)
         (wrap64 (start_end * complete r) # 100)%Q (to_color (complete r))
         (uid_of df (task r)).

(** The differences of dates a frame needs fit a [timedelta64[ns]]. *)
Definition timedeltas_fit (df : frame record) : Prop :=
  Forall (fun r => in_ns_range (start r - series_min (map start (rows df))) = true /\
                   in_ns_range (end_ r - start r) = true) (rows df).

Definition derived_frame (df : frame record) : frame row :=
  map (fun ir => (fst ir, derived_row df (snd ir))) df.

(** The raw frame of a document, written without the world. *)
Definition raw_frame_of `{SortValues} (self : GanttHelper)
    (doc : list (string * record)) : frame record :=
  if sort_by_start self
  then reset_index (sort_values by_start (DataFrame (map snd doc)))
  else DataFrame (map snd doc).

(** ** Example inputs *)

(** A document with three records, two of them for the same task. *)
Definition gantt_doc : list (string * record) :=
  [("1"%string, mk_record "A" (ymd2ord 2018 6 27) (ymd2ord 2018 7 2) (i64 55));
   ("2"%string, mk_record "B" (ymd2ord 2018 6 20) (ymd2ord 2018 6 30) (i64 100));
   ("3"%string, mk_record "A" (ymd2ord 2018 6 25) (ymd2ord 2018 6 28) (i64 80))].

(** The record of the format example in the docstring of [toml_data]:
    its end date lies before its start date. *)
Definition docstring_doc : list (string * record) :=
  [("1"%string, mk_record "A" (ymd2ord 2018 6 27) (ymd2ord 2018 6 22) (i64 55))].

(** A single task that starts and ends on the same day. *)
Definition milestone_doc : list (string * record) :=
  [("1"%string, mk_record "A" (ymd2ord 2018 6 27) (ymd2ord 2018 6 27) (i64 55))].

(** Two records with the same start date. *)
Definition tie_doc : list (string * record) :=
  [("1"%string, mk_record "A" (ymd2ord 2018 6 20) (ymd2ord 2018 6 22) (i64 10));
   ("2"%string, mk_record "B" (ymd2ord 2018 6 20) (ymd2ord 2018 6 25) (i64 20))].

(** One unfinished task. *)
Definition single_doc : list (string * record) :=
  [("1"%string, mk_record "A" (ymd2ord 2018 6 20) (ymd2ord 2018 6 30) (i64 55))].



(** A task of two days with a very large completion value. *)
Definition large_complete_doc : list (string * record) :=
  [("1"%string, mk_record "A" (ymd2ord 2018 6 20) (ymd2ord 2018 6 22)
                          (i64 9000000000000000000))].

(** A task of five centuries. *)
Definition centuries_doc : list (string * record) :=
  [("1"%string, mk_record "A" (ymd2ord 1700 1 1) (ymd2ord 2200 1 1) (i64 55))].

(** Eighteen tasks, A to R, that all start on the same day. *)
Definition tied_doc : list (string * record) :=
  map (fun name => (name, mk_record name (ymd2ord 2018 6 20) (ymd2ord 2018 6 22) (i64 10)))
      ["A"; "B"; "C"; "D"; "E"; "F"; "G"; "H"; "I"; "J"; "K"; "L"; "M"; "N"; "O";
       "P"; "Q"; "R"]%string.

(** The call of the docstring of [plot], with the output directory
    [Images] and the file name [Gantt]. *)
Definition gantt_to_images : GanttHelper :=
  mk_GanttHelper "gantt" (Str "Images") (Str "Gantt") true 10 (20, 5)%Q.


(** An output directory two levels down. *)
Definition gantt_to_nested : GanttHelper :=
  mk_GanttHelper "gantt" (Str "out/Images") (Str "Gantt") true 10 (20, 5)%Q.

(** [True] passed for the directory. *)
Definition gantt_to_true : GanttHelper :=
  mk_GanttHelper "gantt" (Bool true) (Str "Gantt") true 10 (20, 5)%Q.

(** A working directory that holds [gantt.toml] and nothing else, with no
    figure open. *)
Definition disk (doc : list (string * record)) : world :=
  mk_world (mk_fs ∅ {[ ["gantt.toml"%string] := TomlFile doc ]}) [].

(** A backend that paints a figure when its canvas, at 100 dots per inch,
    has at least one and fewer than [2^16] pixels each way. *)
Definition paintable (size : Q) : bool :=
  Qle_bool 0.01 size && negb (Qle_bool 655.36 size).

#[local] Instance agg : Backend := {|
  render_error fig :=
    if paintable (fst (figsize fig)) && paintable (snd (figsize fig)) then None
    else Some ValueError
|}.

(** * Properties *)

(** ** The sorting routines implement [SortValues] *)

Section InsertionSort.
Context {A : Type} (key : A -> Z).

Let le_key (a b : A) : Prop := key a <= key b.

Lemma insert_before_equal_perm (x : A) (l : list A) :
  Permutation (insert_before_equal key x l) (x :: l).
Proof.
  induction l as [|y t IH]; simpl; [reflexivity|].
  destruct (key x <=? key y); [reflexivity|].
  rewrite IH. apply perm_swap.
Qed.

Lemma stable_sort_perm (l : list A) : Permutation (stable_sort key l) l.
Proof.
  induction l as [|x t IH]; simpl; [reflexivity|].
  rewrite insert_before_equal_perm. now constructor.
Qed.

Lemma insert_before_equal_sorted (x : A) (l : list A) :
  StronglySorted le_key l -> StronglySorted le_key (insert_before_equal key x l).
Proof.
  induction 1 as [|y t Hs IH Hy]; simpl.
  - repeat constructor.
  - destruct (Z.leb_spec (key x) (key y)) as [Hle|Hgt].
    + constructor; [now constructor|].
      constructor; [exact Hle|].
      eapply Forall_impl; [exact Hy|].
      intros z Hz. unfold le_key in *. lia.
    + constructor; [exact IH|].
      eapply Permutation_Forall;
        [symmetry; apply insert_before_equal_perm|].
      constructor; [unfold le_key; lia|exact Hy].
Qed.

Lemma stable_sort_sorted (l : list A) :
  StronglySorted (fun a b => key a <= key b) (stable_sort key l).
Proof.
  induction l as [|x t IH]; simpl; [constructor|].
  now apply insert_before_equal_sorted.
Qed.

Lemma take_from (l1 l2 : list A) :
  take (l1 ++ l2) (seq (length l1) (length l2)) = l2.
Proof.
  revert l1; induction l2 as [|x t IH]; intros l1; [reflexivity|].
  unfold take in *. cbn [length seq flat_map].
  rewrite lookup_app_r by lia. rewrite Nat.sub_diag. cbn [lookup list_lookup option_list app].
  f_equal. specialize (IH (l1 ++ [x])).
  rewrite <- app_assoc, length_app in IH. cbn [length app] in IH.
  rewrite Nat.add_1_r in IH. exact IH.
Qed.

Lemma take_all (l : list A) : take l (seq 0 (length l)) = l.
Proof. apply (take_from [] l). Qed.

Lemma is_arrangement_perm (n : nat) (indexer : list nat) :
  is_arrangement n indexer = true -> Permutation (seq 0 n) indexer.
Proof.
  unfold is_arrangement. intros H.
  apply andb_prop in H as [Hlen Hall]. apply Nat.eqb_eq in Hlen.
  apply NoDup_Permutation_bis.
  - apply List.seq_NoDup.
  - rewrite length_seq. lia.
  - intros i Hi. rewrite List.forallb_forall in Hall.
    specialize (Hall i Hi). apply List.existsb_exists in Hall as (j & Hj & Hij).
    apply Nat.eqb_eq in Hij. now subst j.
Qed.

Lemma is_ascending_sorted (l : list A) :
  is_ascending key l = true -> StronglySorted (fun a b => key a <= key b) l.
Proof.
  induction l as [|x t IH]; simpl; [constructor|].
  intros H. apply andb_prop in H as [Hx Ht].
  constructor; [now apply IH|].
  rewrite List.forallb_forall in Hx. apply List.Forall_forall.
  intros y Hy. specialize (Hx y Hy). lia.
Qed.

Lemma numpy_sort_perm (l : list A) : Permutation (numpy_sort key l) l.
Proof.
  unfold numpy_sort.
  destruct (is_arrangement _ _ && is_ascending _ _) eqn:Hc;
    [|apply stable_sort_perm].
  apply andb_prop in Hc as [Harr _]. apply is_arrangement_perm in Harr.
  transitivity (take l (seq 0 (length l))); [|now rewrite take_all].
  unfold take. apply Permutation_flat_map. now symmetry.
Qed.

Lemma numpy_sort_sorted (l : list A) :
  StronglySorted (fun a b => key a <= key b) (numpy_sort key l).
Proof.
  unfold numpy_sort.
  destruct (is_arrangement _ _ && is_ascending _ _) eqn:Hc;
    [|apply stable_sort_sorted].
  apply andb_prop in Hc as [_ Hasc]. now apply is_ascending_sorted.
Qed.
End InsertionSort.

(** A sorting routine that happens to be stable. *)
#[local] Instance stable_sorting : SortValues := {|
  sort_values := @stable_sort;
  sort_values_perm := @stable_sort_perm;
  sort_values_sorted := @stable_sort_sorted
|}.

(** The sorting routine numpy runs. *)
Definition numpy_sorting : SortValues := {|
  sort_values := @numpy_sort;
  sort_values_perm := @numpy_sort_perm;
  sort_values_sorted := @numpy_sort_sorted
|}.

(** ** The colour rule *)

Lemma green_alpha (x : Z) : (rgba_alpha (green x) == inject_Z x / 100)%Q.
Proof.
  unfold green, rgba_alpha; simpl.
  unfold Qeq, Qdiv, Qmult, Qinv, inject_Z; simpl. lia.
Qed.

(** C1: [to_color] is a total function of the completion value alone:
    gray when it is 100, green with alpha [x/100] when it lies strictly
    between 60 and 100, red in every other case; so 60, 0, negative values
    and values above 100 are all red. *)
Theorem to_color_cases (x : Z) :
  (x = 100 -> to_color x = (0.3, 0.3, 0.3, 1)%Q) /\
  (60 < x < 100 -> to_color x = (0, 0.5, 0.3, x # 100)%Q) /\
  (x <> 100 -> ~ 60 < x < 100 -> to_color x = (0.7, 0, 0, 0.8)%Q) /\
  (x <= 60 \/ 100 < x -> to_color x = red) /\
  to_color 100 = gray /\
  to_color 61 = (0, 0.5, 0.3, 0.61)%Q /\
  to_color 60 = red /\
  to_color 0 = red.
Proof.
  unfold to_color, red, gray.
  repeat split; try reflexivity; intros.
  - subst x. reflexivity.
  - destruct (Z.eqb_spec x 100); [lia|].
    destruct (Z.ltb_spec x 100); [|lia].
    destruct (Z.gtb_spec x 60); [|lia]. reflexivity.
  - destruct (Z.eqb_spec x 100); [lia|].
    destruct (Z.ltb_spec x 100); destruct (Z.gtb_spec x 60);
      simpl; try reflexivity; lia.
  - destruct (Z.eqb_spec x 100); [lia|].
    destruct (Z.ltb_spec x 100); destruct (Z.gtb_spec x 60);
      simpl; try reflexivity; lia.
Qed.

(** ** Lists, frames and first-seen order *)

Lemma combine_seq_snd {A} (l : list A) (s : nat) :
  map snd (combine (seq s (length l)) l) = l.
Proof.
  revert s; induction l as [|x t IH]; intros s; simpl; [reflexivity|].
  now rewrite IH.
Qed.

Lemma combine_seq_fst {A} (l : list A) (s : nat) :
  map fst (combine (seq s (length l)) l) = seq s (length l).
Proof.
  revert s; induction l as [|x t IH]; intros s; simpl; [reflexivity|].
  now rewrite IH.
Qed.

Lemma DataFrame_rows {A} (values : list A) : rows (DataFrame values) = values.
Proof. apply combine_seq_snd. Qed.

Lemma DataFrame_labels {A} (values : list A) :
  labels (DataFrame values) = seq 0 (length values).
Proof. apply combine_seq_fst. Qed.

Lemma combine_map_same {A B C} (f : A -> B) (g : A -> C) (l : list A) :
  combine (map f l) (map g l) = map (fun x => (f x, g x)) l.
Proof. induction l as [|x t IH]; simpl; [reflexivity|now rewrite IH]. Qed.

Lemma StronglySorted_map {A B} (f : A -> B) (R : B -> B -> Prop) (l : list A) :
  StronglySorted (fun a b => R (f a) (f b)) l -> StronglySorted R (map f l).
Proof.
  induction 1 as [|x t Hs IH Hx]; simpl; constructor; [exact IH|].
  apply List.Forall_map. exact Hx.
Qed.

Lemma list_index_Some_elem (x : string) (l : list string) :
  x ∈ l -> exists i, list_index x l = Some i.
Proof.
  induction l as [|y t IH]; intros Hin.
  - now apply elem_of_nil in Hin.
  - simpl. destruct (String.eqb_spec y x) as [->|Hne]; [now exists O|].
    apply elem_of_cons in Hin as [->|Hin]; [congruence|].
    destruct (IH Hin) as [i ->]. now exists (S i).
Qed.

Lemma list_index_lookup (x : string) (l : list string) (i : nat) :
  list_index x l = Some i -> l !! i = Some x.
Proof.
  revert i; induction l as [|y t IH]; intros i; simpl; [discriminate|].
  destruct (String.eqb_spec y x) as [->|Hne].
  - now intros [= <-].
  - destruct (list_index x t) as [j|] eqn:E; simpl; [|discriminate].
    intros [= <-]. simpl. now apply IH.
Qed.

Lemma list_index_app_l (x : string) (l k : list string) (i : nat) :
  list_index x l = Some i -> list_index x (l ++ k) = Some i.
Proof.
  revert i; induction l as [|y t IH]; intros i; simpl; [discriminate|].
  destruct (String.eqb y x); [trivial|].
  destruct (list_index x t) as [j|]; simpl; [|discriminate].
  intros [= <-]. now rewrite (IH j).
Qed.

Lemma list_index_app_r (x : string) (l k : list string) :
  x ∉ l -> list_index x (l ++ x :: k) = Some (length l).
Proof.
  induction l as [|y t IH]; intros Hnin; simpl.
  - now rewrite String.eqb_refl.
  - destruct (String.eqb_spec y x) as [->|Hne].
    + exfalso. apply Hnin. now left.
    + rewrite IH; [reflexivity|]. intros Hin. apply Hnin. now right.
Qed.

Lemma unique_from_elem (seen l : list string) (x : string) :
  x ∈ unique_from seen l <-> x ∈ l /\ x ∉ seen.
Proof.
  revert seen; induction l as [|y t IH]; intros seen; simpl.
  - rewrite elem_of_nil. tauto.
  - case_bool_decide as Hy.
    + rewrite IH, elem_of_cons. split; [tauto|].
      intros [[->|Hin] Hnin]; tauto.
    + rewrite !elem_of_cons, IH, elem_of_cons. split.
      * intros [->|[Hin Hnin]]; tauto.
      * intros [[->|Hin] Hnin]; [tauto|].
        destruct (decide (x = y)); tauto.
Qed.

Lemma unique_elem (l : list string) (x : string) : x ∈ unique l <-> x ∈ l.
Proof.
  unfold unique. rewrite unique_from_elem, elem_of_nil. tauto.
Qed.

Lemma unique_from_NoDup (seen l : list string) : NoDup (unique_from seen l).
Proof.
  revert seen; induction l as [|y t IH]; intros seen; simpl.
  - constructor.
  - case_bool_decide; [apply IH|].
    constructor; [|apply IH].
    rewrite unique_from_elem, elem_of_cons. tauto.
Qed.

Lemma unique_NoDup (l : list string) : NoDup (unique l).
Proof. apply unique_from_NoDup. Qed.

Lemma list_index_None (x : string) (l : list string) :
  x ∉ l -> list_index x l = None.
Proof.
  induction l as [|y t IH]; intros Hnin; simpl; [reflexivity|].
  destruct (String.eqb_spec y x) as [->|Hne].
  - exfalso. apply Hnin. now left.
  - rewrite IH; [reflexivity|]. intros Hin. apply Hnin. now right.
Qed.

Lemma list_index_snoc_ne (x y : string) (l : list string) :
  y <> x -> list_index y (l ++ [x]) = list_index y l.
Proof.
  intros Hne. induction l as [|z t IH]; simpl.
  - destruct (String.eqb_spec x y); [congruence|reflexivity].
  - destruct (String.eqb z y); [reflexivity|now rewrite IH].
Qed.

(** The positions in the list of distinct labels are the numbers handed
    out by the first-seen walk. *)
Lemma positions_assign_uids (t u seen : list string) (table : gmap string nat) :
  (forall x, x ∈ seen <-> x ∈ u) ->
  (forall x, table !! x = list_index x u) ->
  map (category_position (u ++ unique_from seen t)) t
  = assign_uids table (length u) t.
Proof.
  revert u seen table.
  induction t as [|x t IH]; intros u seen table Hseen Htable; simpl; [reflexivity|].
  case_bool_decide as Hx.
  - apply Hseen in Hx.
    destruct (list_index_Some_elem x u Hx) as [i Hi].
    rewrite Htable, Hi. f_equal.
    + unfold category_position. now rewrite (list_index_app_l x u _ i Hi).
    + now apply IH.
  - assert (Hu : x ∉ u) by (intros H; apply Hx, Hseen, H).
    rewrite Htable, (list_index_None x u Hu). f_equal.
    + unfold category_position. now rewrite list_index_app_r.
    + replace (u ++ x :: unique_from (x :: seen) t)
        with ((u ++ [x]) ++ unique_from (x :: seen) t)
        by (now rewrite <- app_assoc).
      replace (S (length u)) with (length (u ++ [x]))
        by (rewrite length_app; simpl; lia).
      apply IH.
      * intros y. rewrite elem_of_cons, elem_of_app, list_elem_of_singleton, Hseen.
        tauto.
      * intros y. destruct (decide (x = y)) as [->|Hne].
        -- rewrite lookup_insert_eq.
           replace (u ++ [y]) with (u ++ y :: []) by reflexivity.
           now rewrite list_index_app_r.
        -- rewrite lookup_insert_ne by exact Hne.
           rewrite list_index_snoc_ne by congruence. apply Htable.
Qed.

Lemma uid_of_first_seen (tasks : list string) :
  map (category_position (unique tasks)) tasks = first_seen_uids tasks.
Proof.
  apply (positions_assign_uids tasks [] [] ∅).
  - tauto.
  - intros x. apply lookup_empty.
Qed.

(** The category table of the axis after a [barh] on a fresh axis. *)
Lemma update_categories_unique_from (data acc seen : list string) :
  (forall x, x ∈ seen <-> x ∈ acc) ->
  update_categories acc data = acc ++ unique_from seen data.
Proof.
  unfold update_categories.
  revert acc seen; induction data as [|x t IH]; intros acc seen Hseen; simpl.
  - now rewrite app_nil_r.
  - case_bool_decide as Hacc; case_bool_decide as Hs.
    + now apply IH.
    + exfalso. apply Hs, Hseen, Hacc.
    + exfalso. apply Hacc, Hseen, Hs.
    + rewrite (IH (acc ++ [x]) (x :: seen)).
      * now rewrite <- app_assoc.
      * intros y. rewrite elem_of_cons, elem_of_app, list_elem_of_singleton, Hseen.
        tauto.
Qed.

Lemma update_categories_fresh (data : list string) :
  update_categories [] data = unique data.
Proof. now rewrite (update_categories_unique_from data [] []). Qed.

Lemma update_categories_known (cats data : list string) :
  (forall x, x ∈ data -> x ∈ cats) -> update_categories cats data = cats.
Proof.
  unfold update_categories.
  induction data as [|x t IH]; intros Hall; simpl; [reflexivity|].
  rewrite bool_decide_true by (apply Hall; now left).
  apply IH. intros y Hy. apply Hall. now right.
Qed.

Lemma update_categories_again (data : list string) :
  update_categories (unique data) data = unique data.
Proof. apply update_categories_known. intros x. now rewrite unique_elem. Qed.

(** ** Running the data pipeline *)

Lemma toml_data_inv (self : GanttHelper) (w w' : world) doc :
  run (toml_data self) w = (Ok doc, w') ->
  w' = w /\ files (fs w) !! parse_path (src self +:+ ".toml") = Some (TomlFile doc).
Proof.
  unfold run, toml_data, toml_load.
  destruct (files (fs w) !! parse_path (src self +:+ ".toml")) as [[doc'|]|].
  - intros [= <- <-]. now split.
  - discriminate.
  - case_bool_decide; [discriminate|].
    destruct (file_in_the_way _ _); discriminate.
Qed.

Lemma toml_data_world (self : GanttHelper) (w : world) :
  snd (run (toml_data self) w) = w.
Proof.
  unfold run, toml_data, toml_load.
  destruct (files (fs w) !! parse_path (src self +:+ ".toml")) as [[doc'|]|];
    try reflexivity.
  case_bool_decide; [reflexivity|].
  destruct (file_in_the_way _ _); reflexivity.
Qed.

Section Pipeline.
Context `{SV : SortValues}.

Lemma raw_dataframe_data_inv (self : GanttHelper) (w w' : world) df :
  run (raw_dataframe_data self) w = (Ok df, w') ->
  w' = w /\
  exists doc,
    run (toml_data self) w = (Ok doc, w) /\
    ((sort_by_start self = false /\ df = DataFrame (map snd doc)) \/
     (sort_by_start self = true /\ map snd doc <> [] /\
      df = reset_index (sort_values by_start (DataFrame (map snd doc))))).
Proof.
  unfold run, raw_dataframe_data, bind.
  destruct (toml_data self w) as [[doc|e] w1] eqn:Ht; [|discriminate].
  apply toml_data_inv in Ht as Hinv. destruct Hinv as [-> Hfile].
  destruct (sort_by_start self) eqn:Hs.
  - unfold lift, sort_values_by_start.
    destruct (DataFrame (map snd doc)) as [|ir0 df0] eqn:Hdf; [discriminate|].
    unfold ret. intros [= <- <-]. split; [reflexivity|].
    exists doc. split; [reflexivity|]. right.
    split; [reflexivity|]. split.
    + intros Hnil. rewrite Hnil in Hdf. discriminate.
    + now rewrite Hdf.
  - unfold ret. intros [= <- <-]. split; [reflexivity|].
    exists doc. split; [reflexivity|]. now left.
Qed.

Lemma raw_dataframe_data_world (self : GanttHelper) (w : world) :
  snd (run (raw_dataframe_data self) w) = w.
Proof.
  unfold run, raw_dataframe_data, bind.
  pose proof (toml_data_world self w) as Hw. unfold run in Hw.
  destruct (toml_data self w) as [[doc|e] w1]; simpl in Hw; subst w1;
    [|reflexivity].
  destruct (sort_by_start self); [|reflexivity].
  unfold lift. destruct (sort_values_by_start _); reflexivity.
Qed.

(** On a loaded, non-empty document the raw frame is produced. *)
Lemma raw_dataframe_data_sorted_run (self : GanttHelper) (w : world) doc :
  run (toml_data self) w = (Ok doc, w) ->
  sort_by_start self = true ->
  doc <> [] ->
  run (raw_dataframe_data self) w
  = (Ok (reset_index (sort_values by_start (DataFrame (map snd doc)))), w).
Proof.
  intros Ht Hs Hne. unfold run in *. unfold raw_dataframe_data, bind.
  rewrite Ht, Hs. unfold lift, sort_values_by_start.
  destruct doc as [|[k r] doc]; [congruence|]. reflexivity.
Qed.

Lemma raw_dataframe_data_unsorted_run (self : GanttHelper) (w : world) doc :
  run (toml_data self) w = (Ok doc, w) ->
  sort_by_start self = false ->
  run (raw_dataframe_data self) w = (Ok (DataFrame (map snd doc)), w).
Proof.
  intros Ht Hs. unfold run in *. unfold raw_dataframe_data, bind.
  now rewrite Ht, Hs.
Qed.

Lemma sorted_frame_rows (values : list record) :
  let df := reset_index (sort_values by_start (DataFrame values)) in
  labels df = seq 0 (length values) /\
  Permutation (rows df) values /\
  StronglySorted (fun a b => start a <= start b) (rows df).
Proof.
  simpl. unfold reset_index.
  rewrite DataFrame_rows, DataFrame_labels.
  pose proof (sort_values_perm _ by_start (DataFrame values)) as Hp.
  pose proof (sort_values_sorted _ by_start (DataFrame values)) as Hs.
  repeat split.
  - unfold rows. rewrite length_map.
    rewrite (Permutation_length Hp). unfold DataFrame.
    rewrite length_combine, length_seq. now rewrite Nat.min_id.
  - rewrite <- (DataFrame_rows values) at 2. unfold rows.
    now apply Permutation_map.
  - unfold rows. apply (StronglySorted_map snd (fun a b => start a <= start b)).
    exact Hs.
Qed.

Lemma derive_ok (df : frame record) (r : record) :
  In r (rows df) ->
  in_ns_range (start r - series_min (map start (rows df))) = true ->
  in_ns_range (end_ r - start r) = true ->
  derive df (series_min (map start (rows df))) r = Ok (derived_row df r).
Proof.
  intros Hin H1 H2.
  unfold derive, timedelta_days, unique_task_id, derived_row, uid_of, category_position.
  rewrite H1, H2. simpl.
  assert (Ht : task r ∈ unique (map task (rows df))).
  { apply unique_elem, list_elem_of_In, in_map, Hin. }
  destruct (list_index_Some_elem _ _ Ht) as [i ->]. reflexivity.
Qed.

Lemma derive_inv (df : frame record) (r : record) (rw : row) :
  In r (rows df) ->
  derive df (series_min (map start (rows df))) r = Ok rw ->
  rw = derived_row df r /\
  in_ns_range (start r - series_min (map start (rows df))) = true /\
  in_ns_range (end_ r - start r) = true.
Proof.
  intros Hin Hd.
  destruct (in_ns_range (start r - series_min (map start (rows df)))) eqn:H1;
    [|unfold derive, timedelta_days in Hd; rewrite H1 in Hd; discriminate].
  destruct (in_ns_range (end_ r - start r)) eqn:H2;
    [|unfold derive, timedelta_days in Hd; rewrite H1, H2 in Hd; discriminate].
  rewrite (derive_ok df r Hin H1 H2) in Hd. injection Hd as <-. auto.
Qed.

Lemma derive_all_ok (df : frame record) (l : frame record) :
  (forall ir, In ir l -> In (snd ir) (rows df)) ->
  Forall (fun r => in_ns_range (start r - series_min (map start (rows df))) = true /\
                   in_ns_range (end_ r - start r) = true) (rows l) ->
  result_mapM
    (fun ir => result_bind (derive df (series_min (map start (rows df))) (snd ir))
                           (fun r => Ok (fst ir, r))) l
  = Ok (map (fun ir => (fst ir, derived_row df (snd ir))) l).
Proof.
  induction l as [|ir t IH]; intros Hall Hfit; simpl; [reflexivity|].
  unfold rows in Hfit. simpl in Hfit. apply Forall_cons in Hfit as [[H1 H2] Hfit].
  rewrite (derive_ok df (snd ir)); [|apply Hall; now left|exact H1|exact H2].
  simpl. rewrite IH; [reflexivity| |exact Hfit].
  intros ir' Hin; apply Hall; now right.
Qed.

Lemma derive_all_inv (df : frame record) (l : frame record) (out : frame row) :
  (forall ir, In ir l -> In (snd ir) (rows df)) ->
  result_mapM
    (fun ir => result_bind (derive df (series_min (map start (rows df))) (snd ir))
                           (fun r => Ok (fst ir, r))) l
  = Ok out ->
  Forall (fun r => in_ns_range (start r - series_min (map start (rows df))) = true /\
                   in_ns_range (end_ r - start r) = true) (rows l).
Proof.
  revert out; induction l as [|ir t IH]; intros out Hall Hm; [constructor|].
  simpl in Hm.
  destruct (derive df (series_min (map start (rows df))) (snd ir)) as [rw|e] eqn:Hd;
    [|discriminate].
  simpl in Hm.
  destruct (result_mapM _ t) as [out'|e] eqn:Ht; [|discriminate].
  apply derive_inv in Hd as (_ & H1 & H2); [|apply Hall; now left].
  unfold rows. simpl. constructor; [now split|].
  apply (IH out'); [|reflexivity]. intros ir' Hin. apply Hall. now right.
Qed.

Lemma cleaned_dataframe_data_run (self : GanttHelper) (w : world) df :
  run (raw_dataframe_data self) w = (Ok df, w) ->
  df <> [] ->
  timedeltas_fit df ->
  run (cleaned_dataframe_data self) w = (Ok (derived_frame df), w).
Proof.
  intros Hraw Hne Hfit. unfold run in *. unfold cleaned_dataframe_data, bind.
  rewrite Hraw. destruct df as [|ir0 df0] eqn:Hdf; [congruence|].
  rewrite <- Hdf in *. unfold lift. rewrite derive_all_ok; [reflexivity| |exact Hfit].
  intros ir Hin. unfold rows. now apply in_map.
Qed.

(** A frame whose time spans do not fit is refused. *)
Lemma cleaned_dataframe_data_out_of_bounds (self : GanttHelper) (w : world) df :
  run (raw_dataframe_data self) w = (Ok df, w) ->
  ~ timedeltas_fit df ->
  exists e, run (cleaned_dataframe_data self) w = (Raise e, w).
Proof.
  intros Hraw Hfit. unfold run in *. unfold cleaned_dataframe_data, bind.
  rewrite Hraw. destruct df as [|ir0 df0] eqn:Hdf.
  - exfalso. apply Hfit. constructor.
  - rewrite <- Hdf in *. unfold lift.
    destruct (result_mapM _ df) as [out|e] eqn:Hm; [|now exists e].
    exfalso. apply Hfit. apply (derive_all_inv df df out); [|exact Hm].
    intros ir Hin. unfold rows. now apply in_map.
Qed.

Lemma cleaned_dataframe_data_inv (self : GanttHelper) (w w' : world) cdf :
  run (cleaned_dataframe_data self) w = (Ok cdf, w') ->
  w' = w /\
  exists df,
    run (raw_dataframe_data self) w = (Ok df, w) /\ df <> [] /\
    timedeltas_fit df /\
    cdf = derived_frame df.
Proof.
  intros Hrun.
  destruct (run (raw_dataframe_data self) w) as [[df|e] w1] eqn:Hraw.
  - apply raw_dataframe_data_inv in Hraw as Hinv. destruct Hinv as [-> _].
    destruct df as [|ir0 df0] eqn:Hdf.
    + unfold run in *. unfold cleaned_dataframe_data, bind in Hrun.
      rewrite Hraw in Hrun. discriminate.
    + rewrite <- Hdf in *.
      assert (Hne : df <> []) by (rewrite Hdf; discriminate).
      assert (Hfit : timedeltas_fit df).
      { unfold run in *. unfold cleaned_dataframe_data, bind in Hrun.
        rewrite Hraw in Hrun. rewrite Hdf in Hrun. rewrite <- Hdf in Hrun.
        unfold lift in Hrun.
        destruct (result_mapM _ df) as [out|e] eqn:Hm; [|discriminate].
        apply (derive_all_inv df df out); [|exact Hm].
        intros ir Hin. unfold rows. now apply in_map. }
      rewrite (cleaned_dataframe_data_run self w df Hraw Hne Hfit) in Hrun.
      injection Hrun as <- <-. split; [reflexivity|].
      exists df. auto.
  - unfold run in *. unfold cleaned_dataframe_data, bind in Hrun.
    rewrite Hraw in Hrun. discriminate.
Qed.

Lemma cleaned_dataframe_data_world (self : GanttHelper) (w : world) :
  snd (run (cleaned_dataframe_data self) w) = w.
Proof.
  destruct (run (cleaned_dataframe_data self) w) as [[cdf|e] w1] eqn:Hrun.
  - apply cleaned_dataframe_data_inv in Hrun as [-> _]. reflexivity.
  - simpl. unfold run in *. unfold cleaned_dataframe_data, bind in Hrun.
    pose proof (raw_dataframe_data_world self w) as Hw. unfold run in Hw.
    destruct (raw_dataframe_data self w) as [[df|e'] w2]; simpl in Hw; subst w2.
    + destruct df; unfold raise, lift in Hrun; congruence.
    + congruence.
Qed.
End Pipeline.

(** ** Minimum and maximum of a column *)

Lemma fold_left_min_le (l : list Z) (x : Z) :
  fold_left Z.min l x <= x /\ Forall (fun y => fold_left Z.min l x <= y) l.
Proof.
  revert x; induction l as [|y t IH]; intros x; simpl.
  - split; [lia|constructor].
  - destruct (IH (Z.min x y)) as [H1 H2]. split; [lia|].
    constructor; [lia|exact H2].
Qed.

Lemma fold_left_min_in (l : list Z) (x : Z) :
  fold_left Z.min l x = x \/ In (fold_left Z.min l x) l.
Proof.
  revert x; induction l as [|y t IH]; intros x; simpl; [now left|].
  destruct (IH (Z.min x y)) as [H|H]; [|now right; right].
  rewrite H. destruct (Z.min_spec x y) as [[_ ->]|[_ ->]]; [now left|now right; left].
Qed.

Lemma fold_left_max_ge (l : list Z) (x : Z) :
  x <= fold_left Z.max l x /\ Forall (fun y => y <= fold_left Z.max l x) l.
Proof.
  revert x; induction l as [|y t IH]; intros x; simpl.
  - split; [lia|constructor].
  - destruct (IH (Z.max x y)) as [H1 H2]. split; [lia|].
    constructor; [lia|exact H2].
Qed.

Lemma fold_left_max_in (l : list Z) (x : Z) :
  fold_left Z.max l x = x \/ In (fold_left Z.max l x) l.
Proof.
  revert x; induction l as [|y t IH]; intros x; simpl; [now left|].
  destruct (IH (Z.max x y)) as [H|H]; [|now right; right].
  rewrite H. destruct (Z.max_spec x y) as [[_ ->]|[_ ->]]; [now right; left|now left].
Qed.

Lemma series_min_le (l : list Z) (x : Z) : In x l -> series_min l <= x.
Proof.
  destruct l as [|y t]; [intros []|]. simpl.
  destruct (fold_left_min_le t y) as [H1 H2].
  intros [<-|Hin]; [exact H1|].
  rewrite List.Forall_forall in H2. now apply H2.
Qed.

Lemma series_min_in (l : list Z) : l <> [] -> In (series_min l) l.
Proof.
  destruct l as [|y t]; [congruence|]. intros _. simpl.
  destruct (fold_left_min_in t y) as [->|H]; [now left|now right].
Qed.

Lemma series_max_ge (l : list Z) (x : Z) : In x l -> x <= series_max l.
Proof.
  destruct l as [|y t]; [intros []|]. simpl.
  destruct (fold_left_max_ge t y) as [H1 H2].
  intros [<-|Hin]; [exact H1|].
  rewrite List.Forall_forall in H2. now apply H2.
Qed.

Lemma series_max_in (l : list Z) : l <> [] -> In (series_max l) l.
Proof.
  destruct l as [|y t]; [congruence|]. intros _. simpl.
  destruct (fold_left_max_in t y) as [->|H]; [now left|now right].
Qed.

(** ** The cleaned frame of a loaded document *)

Lemma toml_data_run (self : GanttHelper) (w : world) doc :
  files (fs w) !! parse_path (src self +:+ ".toml") = Some (TomlFile doc) ->
  run (toml_data self) w = (Ok doc, w).
Proof.
  intros Hf. unfold run, toml_data, toml_load. now rewrite Hf.
Qed.

Lemma derived_frame_rows (df : frame record) :
  rows (derived_frame df) = map (derived_row df) (rows df).
Proof.
  unfold derived_frame, rows. rewrite !map_map. reflexivity.
Qed.

Lemma derived_frame_labels (df : frame record) :
  labels (derived_frame df) = labels df.
Proof.
  unfold derived_frame, labels. rewrite map_map. reflexivity.
Qed.

Lemma derived_frame_recs (df : frame record) :
  map rec (rows (derived_frame df)) = rows df.
Proof.
  rewrite derived_frame_rows, map_map. simpl. apply map_id.
Qed.

(** A present, non-empty document always yields a raw frame, which holds
    the records of the document (sorted by start when asked) under the
    labels 0..n-1; the cleaned frame is made of the derived rows of the
    raw frame when its time spans fit. *)
Lemma cleaned_of_doc `{SV : SortValues} (self : GanttHelper) (w : world) doc :
  files (fs w) !! parse_path (src self +:+ ".toml") = Some (TomlFile doc) ->
  doc <> [] ->
  exists df,
    run (raw_dataframe_data self) w = (Ok df, w) /\
    (timedeltas_fit df ->
     run (cleaned_dataframe_data self) w = (Ok (derived_frame df), w)) /\
    df <> [] /\
    labels df = seq 0 (length doc) /\
    Permutation (rows df) (map snd doc) /\
    (sort_by_start self = true ->
     StronglySorted (fun a b => start a <= start b) (rows df)) /\
    (sort_by_start self = false -> rows df = map snd doc).
Proof.
  intros Hf Hne. apply toml_data_run in Hf.
  assert (Hlen : forall df : frame record,
             labels df = seq 0 (length doc) -> df <> []).
  { intros df Hl ->. destruct doc; [congruence|discriminate]. }
  destruct (sort_by_start self) eqn:Hs.
  - pose proof (raw_dataframe_data_sorted_run self w doc Hf Hs Hne) as Hraw.
    destruct (sorted_frame_rows (map snd doc)) as (Hl & Hp & Hsorted).
    rewrite length_map in Hl.
    eexists. split; [exact Hraw|].
    split; [intros Hfit; apply cleaned_dataframe_data_run;
            [exact Hraw|now apply Hlen|exact Hfit]|].
    split; [now apply Hlen|]. split; [exact Hl|]. split; [exact Hp|].
    split; [intros _; exact Hsorted|discriminate].
  - pose proof (raw_dataframe_data_unsorted_run self w doc Hf Hs) as Hraw.
    assert (Hl : labels (DataFrame (map snd doc)) = seq 0 (length doc))
      by (rewrite DataFrame_labels; now rewrite length_map).
    eexists. split; [exact Hraw|].
    split; [intros Hfit; apply cleaned_dataframe_data_run;
            [exact Hraw|now apply Hlen|exact Hfit]|].
    split; [now apply Hlen|]. split; [exact Hl|].
    rewrite DataFrame_rows. split; [reflexivity|].
    split; [discriminate|reflexivity].
Qed.

(** What a cleaned frame tells: the source holds a non-empty document,
    the raw frame holds its records, every time span of the frame fits,
    and the rows are the derived rows of the raw frame. *)
Lemma cleaned_frame_inv `{SV : SortValues} (self : GanttHelper) (w w' : world) cdf :
  run (cleaned_dataframe_data self) w = (Ok cdf, w') ->
  w' = w /\
  exists doc df,
    files (fs w) !! parse_path (src self +:+ ".toml") = Some (TomlFile doc) /\
    doc <> [] /\
    run (raw_dataframe_data self) w = (Ok df, w) /\
    df <> [] /\
    labels df = seq 0 (length doc) /\
    Permutation (rows df) (map snd doc) /\
    (sort_by_start self = true ->
     StronglySorted (fun a b => start a <= start b) (rows df)) /\
    (sort_by_start self = false -> rows df = map snd doc) /\
    timedeltas_fit df /\
    cdf = derived_frame df.
Proof.
  intros Hrun.
  apply cleaned_dataframe_data_inv in Hrun as (-> & df & Hraw & Hne & Hfit & ->).
  split; [reflexivity|].
  apply raw_dataframe_data_inv in Hraw as Hinv.
  destruct Hinv as (_ & doc & Ht & Hcases).
  apply toml_data_inv in Ht as [_ Hf].
  assert (Hdoc : doc <> []).
  { intros ->. destruct Hcases as [[_ ->]|[_ [Hn _]]]; [now apply Hne|now apply Hn]. }
  destruct (cleaned_of_doc self w doc Hf Hdoc)
    as (df' & Hraw' & _ & _ & Hl & Hp & Hs & Hu).
  assert (df' = df) by congruence. subst df'.
  exists doc, df. auto 12.
Qed.

(** ** Offsets from the earliest start *)

(** C8: in every cleaned frame (there is one only for a non-empty record
    set) every row has [start_num >= 0], a row whose start date is the
    earliest of all rows has [start_num = 0], and there is such a row. *)
Theorem start_num_nonneg_and_zero_at_min `{SV : SortValues}
    (self : GanttHelper) (w w' : world) (cdf : frame row) :
  run (cleaned_dataframe_data self) w = (Ok cdf, w') ->
  cdf <> [] /\
  Forall (fun r => 0 <= start_num r) (rows cdf) /\
  (forall r, In r (rows cdf) ->
     (forall r', In r' (rows cdf) -> start (rec r) <= start (rec r')) ->
     start_num r = 0) /\
  (exists r, In r (rows cdf) /\
     (forall r', In r' (rows cdf) -> start (rec r) <= start (rec r')) /\
     start_num r = 0).
Proof.
  intros Hrun.
  apply cleaned_dataframe_data_inv in Hrun as (_ & df & _ & Hdf & _ & ->).
  assert (Hrows : rows df <> []).
  { unfold rows. destruct df; [congruence|discriminate]. }
  assert (Hmin : In (series_min (map start (rows df))) (map start (rows df))).
  { apply series_min_in. destruct (rows df); [congruence|discriminate]. }
  rewrite derived_frame_rows.
  split; [|split; [|split]].
  - unfold derived_frame. destruct df; [congruence|discriminate].
  - apply List.Forall_map, List.Forall_forall. intros r Hr. simpl.
    pose proof (series_min_le (map start (rows df)) (start r) (in_map start _ _ Hr)).
    lia.
  - intros r' Hr' Hleast.
    apply in_map_iff in Hr' as (r & <- & Hr).
    apply in_map_iff in Hmin as (r2 & Hr2 & Hin2).
    specialize (Hleast (derived_row df r2) (in_map _ _ _ Hin2)). simpl in *.
    pose proof (series_min_le (map start (rows df)) (start r) (in_map start _ _ Hr)).
    lia.
  - apply in_map_iff in Hmin as (r2 & Hr2 & Hin2).
    exists (derived_row df r2). split; [now apply in_map|]. split.
    + intros r' Hr'. apply in_map_iff in Hr' as (r & <- & Hr). simpl.
      rewrite Hr2. apply series_min_le. now apply in_map.
    + simpl. lia.
Qed.

(** The theorem applied to the three-record example document. *)
Lemma start_num_example :
  exists cdf,
    run (cleaned_dataframe_data (init "gantt")) (disk gantt_doc) = (Ok cdf, disk gantt_doc) /\
    map start_num (rows cdf) = [0; 5; 7] /\
    cdf <> [] /\
    Forall (fun r => 0 <= start_num r) (rows cdf) /\
    (forall r, In r (rows cdf) ->
       (forall r', In r' (rows cdf) -> start (rec r) <= start (rec r')) ->
       start_num r = 0) /\
    (exists r, In r (rows cdf) /\
       (forall r', In r' (rows cdf) -> start (rec r) <= start (rec r')) /\
       start_num r = 0).
Proof.
  eexists. split; [vm_compute; reflexivity|]. split; [reflexivity|].
  apply (start_num_nonneg_and_zero_at_min (init "gantt") (disk gantt_doc) (disk gantt_doc)).
  vm_compute. reflexivity.
Defined.

(** A record set whose dates lie five centuries apart has no cleaned
    frame: pandas cannot hold the span. *)
Example no_cleaned_frame_for_five_centuries :
  run (cleaned_dataframe_data (init "gantt")) (disk centuries_doc)
  = (Raise OutOfBoundsTimedelta, disk centuries_doc).
Proof. vm_compute. reflexivity. Qed.

(** ** The completed part of the duration *)

Lemma current_num_value (a c : Z) :
  (a * c # 100 == inject_Z a * inject_Z c / 100)%Q.
Proof.
  unfold Qeq, Qdiv, Qmult, Qinv, inject_Z; simpl. lia.
Qed.

Lemma current_num_range (a c : Z) :
  0 <= a -> 0 <= c <= 100 ->
  (0 <= a * c # 100)%Q /\ (a * c # 100 <= inject_Z a)%Q.
Proof.
  intros Ha Hc. unfold Qle, inject_Z; simpl. split; nia.
Qed.

Lemma wrap64_fits (z : Z) : fits_int64 z -> wrap64 z = z.
Proof.
  unfold fits_int64, wrap64. intros H.
  rewrite Z.mod_small; lia.
Qed.

Lemma in_ns_range_bounds (d : Z) : in_ns_range d = true -> -106751 <= d <= 106751.
Proof.
  unfold in_ns_range, ns_per_day. intros H.
  apply andb_prop in H as [H1 H2].
  apply Z.ltb_lt in H1, H2. lia.
Qed.

(** C2, as the code has it: every row has
    [current_num = start_end * complete / 100] with
    [start_end = end - start], the product being one of 64-bit integers
    (so it is the product itself whenever that fits), and
    [0 <= current_num <= start_end] holds for the rows with
    [0 <= complete <= 100] whose end date is not before their start
    date. *)
Theorem current_num_bounds `{SV : SortValues}
    (self : GanttHelper) (w w' : world) (cdf : frame row) :
  run (cleaned_dataframe_data self) w = (Ok cdf, w') ->
  Forall (fun r =>
            start_end r = end_ (rec r) - start (rec r) /\
            current_num r = (wrap64 (start_end r * complete (rec r)) # 100)%Q /\
            (fits_int64 (start_end r * complete (rec r)) ->
             current_num r = (start_end r * complete (rec r) # 100)%Q /\
             (current_num r
              == inject_Z (start_end r) * inject_Z (complete (rec r)) / 100)%Q) /\
            (0 <= complete (rec r) <= 100 ->
             start (rec r) <= end_ (rec r) ->
             current_num r = (start_end r * complete (rec r) # 100)%Q /\
             (0 <= current_num r)%Q /\ (current_num r <= inject_Z (start_end r))%Q))
         (rows cdf).
Proof.
  intros Hrun.
  apply cleaned_dataframe_data_inv in Hrun as (_ & df & _ & _ & Hfit & ->).
  rewrite derived_frame_rows.
  apply List.Forall_map. unfold timedeltas_fit in Hfit.
  eapply Forall_impl; [exact Hfit|].
  intros r [_ Hse]. simpl. apply in_ns_range_bounds in Hse.
  split; [reflexivity|]. split; [reflexivity|]. split.
  - intros Hw. rewrite (wrap64_fits _ Hw).
    split; [reflexivity|apply current_num_value].
  - intros Hc Hd.
    rewrite wrap64_fits by (unfold fits_int64; nia).
    split; [reflexivity|]. apply current_num_range; lia.
Qed.

(** The theorem applied to the three-record example document. *)
Lemma current_num_bounds_example :
  exists cdf,
    run (cleaned_dataframe_data (init "gantt")) (disk gantt_doc)
    = (Ok cdf, disk gantt_doc) /\
    map current_num (rows cdf) = [1000 # 100; 240 # 100; 275 # 100]%Q /\
    Forall (fun r =>
              start_end r = end_ (rec r) - start (rec r) /\
              current_num r = (wrap64 (start_end r * complete (rec r)) # 100)%Q /\
              (fits_int64 (start_end r * complete (rec r)) ->
               current_num r = (start_end r * complete (rec r) # 100)%Q /\
               (current_num r
                == inject_Z (start_end r) * inject_Z (complete (rec r)) / 100)%Q) /\
              (0 <= complete (rec r) <= 100 ->
               start (rec r) <= end_ (rec r) ->
               current_num r = (start_end r * complete (rec r) # 100)%Q /\
               (0 <= current_num r)%Q /\ (current_num r <= inject_Z (start_end r))%Q))
           (rows cdf).
Proof.
  eexists. split; [vm_compute; reflexivity|]. split; [reflexivity|].
  apply (current_num_bounds (init "gantt") (disk gantt_doc) (disk gantt_doc)).
  vm_compute. reflexivity.
Defined.

(** C2 as stated fails on the record of the docstring (start 2018-06-27,
    end 2018-06-22, complete 55): the completion lies within 0..100 but
    [start_end] is -5 and [current_num] is -2.75.  And the product is one
    of 64-bit integers: for a task of two days with
    [complete = 9000000000000000000] it wraps around, and [current_num]
    is not [2 * complete / 100]. *)
Lemma current_num_negative_for_docstring_record :
  (exists r,
     run (cleaned_dataframe_data (init "gantt")) (disk docstring_doc)
     = (Ok [(0%nat, r)], disk docstring_doc) /\
     0 <= complete (rec r) <= 100 /\
     start_end r = -5 /\
     current_num r = (-275 # 100)%Q /\
     ~ (0 <= current_num r)%Q) /\
  (exists r,
     run (cleaned_dataframe_data (init "gantt")) (disk large_complete_doc)
     = (Ok [(0%nat, r)], disk large_complete_doc) /\
     start_end r = 2 /\
     int64_val (complete (rec r)) = 9000000000000000000 /\
     current_num r = (-446744073709551616 # 100)%Q /\
     ~ (current_num r == inject_Z (start_end r) * inject_Z (complete (rec r)) / 100)%Q).
Proof.
  split.
  - eexists. split; [vm_compute; reflexivity|]. simpl.
    split; [lia|]. split; [reflexivity|]. split; [reflexivity|].
    unfold Qle; simpl. lia.
  - eexists. split; [vm_compute; reflexivity|]. simpl.
    split; [reflexivity|]. split; [reflexivity|]. split; [reflexivity|].
    vm_compute. discriminate.
Qed.

(** ** Vertical positions *)

Lemma category_position_lookup (l : list string) (x : string) :
  x ∈ l -> l !! category_position l x = Some x.
Proof.
  intros Hin. unfold category_position.
  destruct (list_index_Some_elem x l Hin) as [i Hi]. rewrite Hi. simpl.
  now apply list_index_lookup.
Qed.

Lemma category_position_inj (l : list string) (x y : string) :
  x ∈ l -> y ∈ l -> category_position l x = category_position l y -> x = y.
Proof.
  intros Hx Hy Heq.
  pose proof (category_position_lookup l x Hx) as H1.
  pose proof (category_position_lookup l y Hy) as H2.
  rewrite Heq in H1. congruence.
Qed.

(** C6: the [uid] column numbers the task labels in order of first
    appearance in the final row order (the raw frame, sorted when
    [sort_by_start] is set): it is the numbering of the first-seen walk,
    each [uid] is the position of the row's label in the list of distinct
    labels, and two rows have the same [uid] exactly when they have the
    same label. *)
Theorem uid_is_first_seen_position `{SV : SortValues}
    (self : GanttHelper) (w w' : world) (cdf : frame row) :
  run (cleaned_dataframe_data self) w = (Ok cdf, w') ->
  exists doc df,
    files (fs w) !! parse_path (src self +:+ ".toml") = Some (TomlFile doc) /\
    run (raw_dataframe_data self) w = (Ok df, w) /\
    map rec (rows cdf) = rows df /\
    (sort_by_start self = true ->
     StronglySorted (fun a b => start a <= start b) (rows df)) /\
    (sort_by_start self = false -> rows df = map snd doc) /\
    map uid (rows cdf) = first_seen_uids (map task (rows df)) /\
    NoDup (unique (map task (rows df))) /\
    (forall x, x ∈ unique (map task (rows df)) <-> x ∈ map task (rows df)) /\
    Forall (fun r => unique (map task (rows df)) !! uid r = Some (task (rec r)))
           (rows cdf) /\
    (forall r r', In r (rows cdf) -> In r' (rows cdf) ->
       (uid r = uid r' <-> task (rec r) = task (rec r'))).
Proof.
  intros Hrun.
  apply cleaned_frame_inv in Hrun
    as (_ & doc & df & Hf & _ & Hraw & _ & _ & _ & Hsorted & Hunsorted & _ & ->).
  exists doc, df.
  assert (Hin : forall r, In r (rows df) -> task r ∈ unique (map task (rows df))).
  { intros r Hr. apply unique_elem, list_elem_of_In. now apply in_map. }
  split; [exact Hf|]. split; [exact Hraw|].
  split; [apply derived_frame_recs|].
  split; [exact Hsorted|]. split; [exact Hunsorted|].
  split.
  { rewrite derived_frame_rows, map_map. simpl. unfold uid_of.
    rewrite <- uid_of_first_seen. now rewrite map_map. }
  split; [apply unique_NoDup|].
  split; [apply unique_elem|].
  split.
  { rewrite derived_frame_rows.
    apply List.Forall_map, List.Forall_forall. intros r Hr. simpl.
    apply category_position_lookup. now apply Hin. }
  intros r r' Hr Hr'. rewrite derived_frame_rows in *.
  apply in_map_iff in Hr as (r1 & <- & Hr1).
  apply in_map_iff in Hr' as (r2 & <- & Hr2). simpl. split.
  - apply category_position_inj; now apply Hin.
  - now intros ->.
Qed.

(** The theorem applied to the three-record example document: the labels
    B, A, A (sorted order) get 0, 1, 1. *)
Lemma uid_example :
  exists cdf,
    run (cleaned_dataframe_data (init "gantt")) (disk gantt_doc)
    = (Ok cdf, disk gantt_doc) /\
    map (fun r => task (rec r)) (rows cdf) = ["B"; "A"; "A"]%string /\
    map uid (rows cdf) = [0; 1; 1]%nat /\
    exists doc df,
      files (fs (disk gantt_doc)) !! parse_path (src (init "gantt") +:+ ".toml")
      = Some (TomlFile doc) /\
      run (raw_dataframe_data (init "gantt")) (disk gantt_doc) = (Ok df, disk gantt_doc) /\
      map rec (rows cdf) = rows df /\
      (sort_by_start (init "gantt") = true ->
       StronglySorted (fun a b => start a <= start b) (rows df)) /\
      (sort_by_start (init "gantt") = false -> rows df = map snd doc) /\
      map uid (rows cdf) = first_seen_uids (map task (rows df)) /\
      NoDup (unique (map task (rows df))) /\
      (forall x, x ∈ unique (map task (rows df)) <-> x ∈ map task (rows df)) /\
      Forall (fun r => unique (map task (rows df)) !! uid r = Some (task (rec r)))
             (rows cdf) /\
      (forall r r', In r (rows cdf) -> In r' (rows cdf) ->
         (uid r = uid r' <-> task (rec r) = task (rec r'))).
Proof.
  eexists. split; [vm_compute; reflexivity|].
  split; [reflexivity|]. split; [reflexivity|].
  apply (uid_is_first_seen_position (init "gantt") (disk gantt_doc) (disk gantt_doc)).
  vm_compute. reflexivity.
Defined.

(** ** Sorting by start date *)

Section SortedPermutations.
Context {A : Type} (key : A -> Z).

(** With pairwise distinct keys there is only one ascending arrangement. *)
Lemma sorted_perm_unique (l1 l2 : list A) :
  Permutation l1 l2 ->
  StronglySorted (fun a b => key a <= key b) l1 ->
  StronglySorted (fun a b => key a <= key b) l2 ->
  List.NoDup (map key l1) ->
  l1 = l2.
Proof.
  revert l2; induction l1 as [|x t IH]; intros l2 Hp Hs1 Hs2 Hnd.
  - now apply Permutation_nil in Hp.
  - destruct l2 as [|y t2]; [now apply Permutation_sym, Permutation_nil in Hp|].
    apply StronglySorted_inv in Hs1 as [Hs1 Hx].
    apply StronglySorted_inv in Hs2 as [Hs2 Hy].
    rewrite List.Forall_forall in Hx, Hy.
    simpl in Hnd. apply List.NoDup_cons_iff in Hnd as [Hnx Hnd].
    assert (Hyin : In y (x :: t)).
    { apply (Permutation_in y (Permutation_sym Hp)). now left. }
    assert (Hxin : In x (y :: t2)).
    { apply (Permutation_in x Hp). now left. }
    assert (Hxy : x = y).
    { destruct Hyin as [Heq|Hyt]; [exact Heq|].
      destruct Hxin as [Heq|Hxt]; [now symmetry|].
      exfalso. apply Hnx.
      assert (Hk : key x = key y).
      { pose proof (Hx y Hyt). pose proof (Hy x Hxt). lia. }
      rewrite Hk. now apply in_map. }
    subst y. f_equal. apply IH; try assumption.
    now apply Permutation_cons_inv in Hp.
Qed.

Lemma filter_insert_before_equal (k : Z) (x : A) (l : list A) :
  List.filter (fun a => key a =? k) (insert_before_equal key x l)
  = List.filter (fun a => key a =? k) (x :: l).
Proof.
  induction l as [|y t IH]; [reflexivity|].
  cbn [insert_before_equal].
  destruct (Z.leb_spec (key x) (key y)) as [Hle|Hgt]; [reflexivity|].
  cbn [List.filter] in *. rewrite IH.
  destruct (Z.eqb_spec (key x) k) as [Hx|Hx]; [|reflexivity].
  destruct (Z.eqb_spec (key y) k) as [Hy|Hy]; [lia|reflexivity].
Qed.

(** The insertion sort that puts a row before its equals is stable. *)
Lemma stable_sort_is_stable (l : list A) :
  is_stable_sort key l (stable_sort key l).
Proof.
  split; [apply stable_sort_sorted|].
  intros k. induction l as [|x t IH]; [reflexivity|].
  cbn [stable_sort fold_right]. rewrite filter_insert_before_equal.
  cbn [List.filter]. fold (stable_sort key t). now rewrite IH.
Qed.

(** Any ascending rearrangement of rows with distinct keys is the stable
    sort. *)
Lemma sorted_perm_stable_when_distinct (l l' : list A) :
  Permutation l' l ->
  StronglySorted (fun a b => key a <= key b) l' ->
  List.NoDup (map key l) ->
  l' = stable_sort key l /\ is_stable_sort key l l'.
Proof.
  intros Hp Hs Hnd.
  assert (Heq : l' = stable_sort key l).
  { apply sorted_perm_unique; try assumption.
    - rewrite Hp. symmetry. apply stable_sort_perm.
    - apply stable_sort_sorted.
    - eapply Permutation_NoDup; [|exact Hnd].
      apply Permutation_map. now symmetry. }
  split; [exact Heq|]. rewrite Heq. apply stable_sort_is_stable.
Qed.
End SortedPermutations.

(** C4, as the code has it: with [sort_by_start] the rows of the frame are
    the loaded records rearranged in ascending order of start date, under
    the index 0..n-1.  The call leaves the sorting algorithm at its
    default, so nothing fixes the order among records with equal start
    dates; when the start dates are pairwise distinct the order is the
    stable sort's, and the start dates 2018-06-27, 2018-06-20, 2018-06-25
    come out as 2018-06-20, 2018-06-25, 2018-06-27. *)
Theorem sorted_rows_ascending `{SV : SortValues}
    (self : GanttHelper) (w : world) (doc : list (string * record)) :
  files (fs w) !! parse_path (src self +:+ ".toml") = Some (TomlFile doc) ->
  doc <> [] ->
  sort_by_start self = true ->
  exists df,
    run (raw_dataframe_data self) w = (Ok df, w) /\
    labels df = seq 0 (length doc) /\
    Permutation (rows df) (map snd doc) /\
    StronglySorted (fun a b => start a <= start b) (rows df) /\
    (List.NoDup (map start (map snd doc)) ->
     is_stable_sort start (map snd doc) (rows df)) /\
    (forall r1 r2 r3,
       map snd doc = [r1; r2; r3] ->
       start r1 = ymd2ord 2018 6 27 ->
       start r2 = ymd2ord 2018 6 20 ->
       start r3 = ymd2ord 2018 6 25 ->
       rows df = [r2; r3; r1]).
Proof.
  intros Hf Hne Hsort.
  destruct (cleaned_of_doc self w doc Hf Hne)
    as (df & Hraw & _ & _ & Hl & Hp & Hsorted & _).
  specialize (Hsorted Hsort).
  exists df.
  split; [exact Hraw|]. split; [exact Hl|]. split; [exact Hp|].
  split; [exact Hsorted|]. split.
  - intros Hnd. now apply sorted_perm_stable_when_distinct.
  - intros r1 r2 r3 Hdoc H1 H2 H3. rewrite Hdoc in Hp.
    assert (Hp' : Permutation [r2; r3; r1] [r1; r2; r3]).
    { apply (perm_trans (perm_skip r2 (perm_swap r1 r3 []))).
      apply perm_swap. }
    apply (sorted_perm_unique start); try assumption.
    + rewrite Hp. now apply Permutation_sym.
    + repeat constructor; rewrite ?H1, ?H2, ?H3; vm_compute; discriminate.
    + eapply Permutation_NoDup;
        [apply Permutation_map, Permutation_sym, Hp|].
      simpl. rewrite H1, H2, H3.
      repeat constructor; simpl; vm_compute; intuition discriminate.
Qed.

(** The theorem applied to the three-record example document, whose start
    dates are 2018-06-27, 2018-06-20 and 2018-06-25. *)
Lemma sorted_rows_example :
  exists df,
    run (raw_dataframe_data (init "gantt")) (disk gantt_doc) = (Ok df, disk gantt_doc) /\
    labels df = seq 0 (length gantt_doc) /\
    Permutation (rows df) (map snd gantt_doc) /\
    StronglySorted (fun a b => start a <= start b) (rows df) /\
    (List.NoDup (map start (map snd gantt_doc)) ->
     is_stable_sort start (map snd gantt_doc) (rows df)) /\
    (forall r1 r2 r3,
       map snd gantt_doc = [r1; r2; r3] ->
       start r1 = ymd2ord 2018 6 27 ->
       start r2 = ymd2ord 2018 6 20 ->
       start r3 = ymd2ord 2018 6 25 ->
       rows df = [r2; r3; r1]).
Proof.
  apply (sorted_rows_ascending (init "gantt") (disk gantt_doc) gantt_doc).
  - vm_compute. reflexivity.
  - discriminate.
  - reflexivity.
Defined.

(** C4 as stated asks for a stable sort.  [sort_values] is called with
    its default [kind='quicksort'], which numpy runs as an introsort: a
    column too long for the final insertion sort is partitioned around
    its middle entry, and the partition moves rows with equal keys past
    each other.
    Eighteen records that all start on 2018-06-20, for the tasks A to R in
    this order, come out as A, P, O, N, ..., C, B, Q, R. *)
Lemma default_sort_need_not_be_stable :
  exists df,
    run (@raw_dataframe_data numpy_sorting (init "gantt")) (disk tied_doc)
    = (Ok df, disk tied_doc) /\
    map start (rows df) = repeat (ymd2ord 2018 6 20) 18 /\
    map task (rows df)
    = ["A"; "P"; "O"; "N"; "M"; "L"; "K"; "J"; "I"; "H"; "G"; "F"; "E"; "D"; "C";
       "B"; "Q"; "R"]%string /\
    map task (map snd tied_doc)
    = ["A"; "B"; "C"; "D"; "E"; "F"; "G"; "H"; "I"; "J"; "K"; "L"; "M"; "N"; "O";
       "P"; "Q"; "R"]%string /\
    ~ is_stable_sort start (map snd tied_doc) (rows df).
Proof.
  eexists. split; [vm_compute; reflexivity|].
  split; [reflexivity|]. split; [reflexivity|]. split; [reflexivity|].
  intros [_ Hstable]. specialize (Hstable (ymd2ord 2018 6 20)).
  vm_compute in Hstable. discriminate.
Qed.

(** The positions numpy's routine returns for eighteen equal keys. *)
Example argsort_of_eighteen_equal_keys :
  argsort (repeat 5 18)
  = [0; 15; 14; 13; 12; 11; 10; 9; 8; 7; 6; 5; 4; 3; 2; 1; 16; 17]%nat.
Proof. vm_compute. reflexivity. Qed.

(** A short column is sorted by insertion alone, which keeps equal keys
    in their order: the two records of [tie_doc] stay A, B. *)
Example short_frames_keep_ties :
  fst (run (@raw_dataframe_data numpy_sorting (init "gantt")) (disk tie_doc))
  = Ok [(0%nat, mk_record "A" (ymd2ord 2018 6 20) (ymd2ord 2018 6 22) (i64 10));
        (1%nat, mk_record "B" (ymd2ord 2018 6 20) (ymd2ord 2018 6 25) (i64 20))].
Proof. vm_compute. reflexivity. Qed.

(** On the three-record example numpy's routine and the stable routine
    agree. *)
Example numpy_sort_on_the_example :
  run (@raw_dataframe_data numpy_sorting (init "gantt")) (disk gantt_doc)
  = run (@raw_dataframe_data stable_sorting (init "gantt")) (disk gantt_doc).
Proof. vm_compute. reflexivity. Qed.

(** ** Running [plot] *)

Lemma bars_of_columns (rs : list row) (cats : list string) (alpha : option Q)
    (f1 : row -> string) (f2 : row -> Q) (f3 : row -> Z) (f4 : row -> rgba) :
  map (fun '(v, w, l, c) => mk_bar (category_position cats v) w l c alpha)
      (combine (combine (combine (map f1 rs) (map f2 rs)) (map f3 rs)) (map f4 rs))
  = map (fun r => mk_bar (category_position cats (f1 r)) (f2 r) (f3 r) (f4 r) alpha) rs.
Proof. induction rs as [|r t IH]; simpl; [reflexivity|now rewrite IH]. Qed.

Lemma for_each_text_run {A} (l : list A) (fx : A -> Q) (fy : A -> nat)
    (fs_ : A -> string) (va : string) (fsys : filesystem) (fig : figure)
    (figs : list figure) :
  for_each l (fun r => ax_text (fx r) (fy r) (fs_ r) va) (mk_world fsys (fig :: figs))
  = (Ok tt,
     mk_world fsys
       (with_texts fig (texts fig ++ map (fun r => mk_text (fx r) (fy r) (fs_ r) va) l)
        :: figs)).
Proof.
  revert fig; induction l as [|x t IH]; intros fig; simpl.
  - unfold ret, with_texts. rewrite app_nil_r. now destruct fig.
  - unfold bind, ax_text at 1, on_figure. simpl.
    rewrite IH. unfold with_texts; simpl. now rewrite <- app_assoc.
Qed.

(** The rows of a cleaned frame carry the position of their label. *)
Lemma derived_rows_positions (df : frame record) :
  let rs := rows (derived_frame df) in
  map (fun r => task (rec r)) rs = map task (rows df) /\
  forall alpha f2,
    map (fun r => mk_bar (category_position (unique (map task (rows df)))
                                            (task (rec r)))
                         (f2 r) (start_num r) (color r) alpha) rs
    = map (fun r => mk_bar (uid r) (f2 r) (start_num r) (color r) alpha) rs.
Proof.
  simpl. rewrite derived_frame_rows. split.
  - now rewrite map_map.
  - intros alpha f2. rewrite !map_map. reflexivity.
Qed.

(** [plot] is the drawing of the chart followed by the saving step. *)
Lemma plot_stages `{SV : SortValues} `{BE : Backend} (self : GanttHelper) (w : world) :
  run (plot self) w =
    match run (draw_chart self) w with
    | (Ok _, w1) => run (save_step self) w1
    | (Raise e, w1) => (Raise e, w1)
    end.
Proof.
  unfold run, plot, draw_chart, save_step, bind.
  destruct (cleaned_dataframe_data self w) as [[cdf|e] w1]; [|reflexivity].
  destruct (subplots _ w1) as [[[]|e] w2]; [|reflexivity].
  destruct (barh _ _ _ _ _ w2) as [[[]|e] w3]; [|reflexivity].
  destruct (barh _ _ _ _ _ w3) as [[[]|e] w4]; [|reflexivity].
  destruct (for_each _ _ w4) as [[[]|e] w5]; [|reflexivity].
  destruct (lift _ w5) as [[ticks|e] w6]; [|reflexivity].
  destruct (set_xticks _ w6) as [[[]|e] w7]; [|reflexivity].
  destruct (lift _ w7) as [[stamps|e] w8]; [|reflexivity].
  destruct (set_xticklabels _ w8) as [[[]|e] w9]; [|reflexivity].
  destruct (plt_title _ w9) as [[[]|e] w10]; reflexivity.
Qed.

Lemma draw_chart_run `{SV : SortValues} (self : GanttHelper) (w : world) cdf :
  run (cleaned_dataframe_data self) w = (Ok cdf, w) ->
  run (draw_chart self) w =
    let df := rows cdf in
    let fig0 := bars_figure self df in
    if figsize_ok (fig_size self) then
      match np_arange (series_max (map end_num df)) (tick_step self df) with
      | Raise e => (Raise e, mk_world (fs w) (fig0 :: figures w))
      | Ok ticks =>
          match date_range (first_start df) (last_end df) (x_ticks_num self) with
          | Raise e => (Raise e, mk_world (fs w) (with_xticks fig0 ticks :: figures w))
          | Ok stamps =>
              if Nat.eqb (length ticks) (length stamps) then
                (Ok tt, mk_world (fs w) (final_figure self df ticks stamps :: figures w))
              else
                (Raise ValueError,
                 mk_world (fs w) (with_xticks fig0 ticks :: figures w))
          end
      end
    else (Raise ValueError, w).
Proof.
  intros Hclean.
  apply cleaned_dataframe_data_inv in Hclean as Hinv.
  destruct Hinv as (_ & df0 & _ & _ & _ & ->).
  destruct (derived_rows_positions df0) as [Htasks Hbars]. simpl in Htasks, Hbars.
  unfold run in *. unfold draw_chart. unfold bind at 1. rewrite Hclean.
  unfold bind at 1. unfold subplots at 1. cbv zeta.
  destruct (figsize_ok (fig_size self)); [|reflexivity].
  unfold bind at 1. unfold barh at 1, on_figure at 1. cbn [figures fs new_figure categories patches texts xticks xticklabels title figsize].
  unfold bind at 1. unfold barh at 1, on_figure at 1. cbn [figures fs new_figure categories patches texts xticks xticklabels title figsize].
  rewrite !bars_of_columns.
  rewrite update_categories_fresh, update_categories_again.
  rewrite Htasks, !Hbars.
  unfold bind at 1. rewrite for_each_text_run.
  cbn [figures fs new_figure categories patches texts xticks xticklabels title figsize with_texts app].
  fold (tick_step self (rows (derived_frame df0))).
  fold (first_start (rows (derived_frame df0))).
  fold (last_end (rows (derived_frame df0))).
  match goal with
  | |- context [with_texts ?f ?t] =>
      replace (with_texts f t) with (bars_figure self (rows (derived_frame df0)))
        by (unfold bars_figure, with_texts; cbn [figsize categories patches texts
              xticks xticklabels title app]; now rewrite Htasks)
  end.
  unfold bind at 1, lift at 1.
  destruct (np_arange _ _) as [ticks|e]; [|reflexivity].
  unfold bind at 1, set_xticks at 1, on_figure at 1. cbn [figures fs].
  unfold bind at 1, lift at 1.
  destruct (date_range _ _ _) as [stamps|e]; [|reflexivity].
  unfold bind at 1, set_xticklabels at 1, on_figure at 1. cbn [figures fs].
  cbn [xticks with_xticks].
  unfold tick_labels at 1. rewrite length_map.
  destruct (Nat.eqb (length ticks) (length stamps)); [|reflexivity].
  unfold plt_title at 1, on_figure at 1. cbn [figures fs].
  reflexivity.
Qed.

Lemma draw_chart_raise `{SV : SortValues} (self : GanttHelper) (w : world) (e : exn) :
  fst (run (cleaned_dataframe_data self) w) = Raise e ->
  run (draw_chart self) w = (Raise e, w).
Proof.
  intros He. pose proof (cleaned_dataframe_data_world self w) as Hw.
  unfold run in *. unfold draw_chart, bind.
  destruct (cleaned_dataframe_data self w) as [[cdf|e'] w1]; simpl in *;
    congruence.
Qed.

Lemma plot_run `{SV : SortValues} `{BE : Backend} (self : GanttHelper) (w : world) cdf :
  run (cleaned_dataframe_data self) w = (Ok cdf, w) ->
  run (plot self) w =
    let df := rows cdf in
    let fig0 := bars_figure self df in
    if figsize_ok (fig_size self) then
      match np_arange (series_max (map end_num df)) (tick_step self df) with
      | Raise e => (Raise e, mk_world (fs w) (fig0 :: figures w))
      | Ok ticks =>
          match date_range (first_start df) (last_end df) (x_ticks_num self) with
          | Raise e => (Raise e, mk_world (fs w) (with_xticks fig0 ticks :: figures w))
          | Ok stamps =>
              if Nat.eqb (length ticks) (length stamps) then
                run (save_step self)
                    (mk_world (fs w) (final_figure self df ticks stamps :: figures w))
              else
                (Raise ValueError,
                 mk_world (fs w) (with_xticks fig0 ticks :: figures w))
          end
      end
    else (Raise ValueError, w).
Proof.
  intros Hclean. rewrite plot_stages, (draw_chart_run self w cdf Hclean). cbv zeta.
  destruct (figsize_ok _); [|reflexivity].
  destruct (np_arange _ _) as [ticks|e]; [|reflexivity].
  destruct (date_range _ _ _) as [stamps|e]; [|reflexivity].
  destruct (Nat.eqb _ _); reflexivity.
Qed.

Lemma plot_raise `{SV : SortValues} `{BE : Backend}
    (self : GanttHelper) (w : world) (e : exn) :
  fst (run (cleaned_dataframe_data self) w) = Raise e ->
  run (plot self) w = (Raise e, w).
Proof.
  intros He. rewrite plot_stages, (draw_chart_raise self w e He). reflexivity.
Qed.

(** A chart that was drawn went through every step. *)
Lemma draw_chart_ok_inv `{SV : SortValues} (self : GanttHelper) (w w1 : world) :
  run (draw_chart self) w = (Ok tt, w1) ->
  exists cdf ticks stamps,
    run (cleaned_dataframe_data self) w = (Ok cdf, w) /\
    figsize_ok (fig_size self) = true /\
    np_arange (series_max (map end_num (rows cdf))) (tick_step self (rows cdf))
    = Ok ticks /\
    date_range (first_start (rows cdf)) (last_end (rows cdf)) (x_ticks_num self)
    = Ok stamps /\
    length ticks = length stamps /\
    w1 = mk_world (fs w) (final_figure self (rows cdf) ticks stamps :: figures w).
Proof.
  intros Hrun.
  pose proof (cleaned_dataframe_data_world self w) as Hw.
  destruct (run (cleaned_dataframe_data self) w) as [[cdf|e] w2] eqn:Hclean;
    simpl in Hw; subst w2.
  - rewrite (draw_chart_run self w cdf Hclean) in Hrun. cbv zeta in Hrun.
    destruct (figsize_ok _) eqn:Hsize; [|discriminate].
    destruct (np_arange _ _) as [ticks|e] eqn:Hticks; [|discriminate].
    destruct (date_range _ _ _) as [stamps|e] eqn:Hstamps; [|discriminate].
    destruct (Nat.eqb _ _) eqn:Hlen; [|discriminate].
    exists cdf, ticks, stamps.
    split; [reflexivity|]. split; [reflexivity|].
    split; [exact Hticks|]. split; [exact Hstamps|].
    split; [now apply Nat.eqb_eq|]. congruence.
  - rewrite (draw_chart_raise self w e) in Hrun; [discriminate|].
    now rewrite Hclean.
Qed.

Lemma makedirs_figures (name : string) (w : world) :
  figures (snd (makedirs name w)) = figures w.
Proof.
  unfold makedirs. destruct (mkdir_chain _ _) as [r fsys]. reflexivity.
Qed.

Lemma output_path_figures (self : GanttHelper) (w : world) :
  figures (snd (output_path self w)) = figures w.
Proof.
  unfold output_path. destruct (truthy (dir self)); [|reflexivity].
  unfold bind. destruct (dir self) as [d|b].
  - pose proof (makedirs_figures d w) as Hm.
    destruct (makedirs d w) as [[[]|e] w1]; exact Hm.
  - reflexivity.
Qed.

Lemma savefig_figures `{BE : Backend} (name bbox : string) (w : world) :
  figures w <> [] -> figures (snd (savefig name bbox w)) = figures w.
Proof.
  intros Hne. unfold savefig.
  destruct (extension (parse_path name)) as [ext|];
    destruct (render_error _);
    repeat (case_bool_decide || destruct (file_in_the_way _ _) || destruct (negb _));
    simpl; try reflexivity; destruct (figures w); simpl; congruence.
Qed.

(** Saving never changes which figures are open. *)
Lemma save_step_figures `{BE : Backend} (self : GanttHelper) (w : world) :
  figures w <> [] -> figures (snd (run (save_step self) w)) = figures w.
Proof.
  intros Hne. unfold run, save_step.
  destruct (truthy (fname self)); [|reflexivity].
  unfold bind. pose proof (output_path_figures self w) as Hp.
  destruct (output_path self w) as [[p|e] w1]; simpl in Hp; [|exact Hp].
  rewrite savefig_figures; congruence.
Qed.

(** Whatever happens after the bars are drawn, [plot] leaves one new
    figure, and it carries the bars and labels of the rows. *)
Lemma plot_bars `{SV : SortValues} `{BE : Backend} (self : GanttHelper) (w : world) cdf :
  run (cleaned_dataframe_data self) w = (Ok cdf, w) ->
  figsize_ok (fig_size self) = true ->
  exists fig,
    figures (snd (run (plot self) w)) = fig :: figures w /\
    figsize fig = fig_size self /\
    categories fig = categories (bars_figure self (rows cdf)) /\
    patches fig = patches (bars_figure self (rows cdf)) /\
    texts fig = texts (bars_figure self (rows cdf)).
Proof.
  intros Hclean Hsize. rewrite (plot_run self w cdf Hclean). cbv zeta. rewrite Hsize.
  destruct (np_arange _ _) as [ticks|e]; [|eexists; simpl; eauto].
  destruct (date_range _ _ _) as [stamps|e]; [|eexists; simpl; eauto].
  destruct (Nat.eqb _ _); [|eexists; simpl; eauto].
  rewrite save_step_figures by discriminate.
  eexists; simpl; eauto.
Qed.

(** A [plot] that returns went through every step. *)
Lemma plot_ok_inv `{SV : SortValues} `{BE : Backend} (self : GanttHelper) (w w' : world) :
  run (plot self) w = (Ok tt, w') ->
  exists cdf ticks stamps,
    run (cleaned_dataframe_data self) w = (Ok cdf, w) /\
    figsize_ok (fig_size self) = true /\
    np_arange (series_max (map end_num (rows cdf))) (tick_step self (rows cdf))
    = Ok ticks /\
    date_range (first_start (rows cdf)) (last_end (rows cdf)) (x_ticks_num self)
    = Ok stamps /\
    length ticks = length stamps /\
    run (draw_chart self) w
    = (Ok tt, mk_world (fs w) (final_figure self (rows cdf) ticks stamps :: figures w)) /\
    run (save_step self)
        (mk_world (fs w) (final_figure self (rows cdf) ticks stamps :: figures w))
    = (Ok tt, w') /\
    figures w' = final_figure self (rows cdf) ticks stamps :: figures w.
Proof.
  intros Hrun. rewrite plot_stages in Hrun.
  destruct (run (draw_chart self) w) as [[[]|e] w1] eqn:Hdraw; [|discriminate].
  destruct (draw_chart_ok_inv self w w1 Hdraw)
    as (cdf & ticks & stamps & Hclean & Hsize & Hticks & Hstamps & Hlen & ->).
  exists cdf, ticks, stamps.
  split; [exact Hclean|]. split; [exact Hsize|].
  split; [exact Hticks|]. split; [exact Hstamps|].
  split; [exact Hlen|]. split; [reflexivity|]. split; [exact Hrun|].
  pose proof (save_step_figures self
                  (mk_world (fs w) (final_figure self (rows cdf) ticks stamps
                                    :: figures w))) as Hfig.
  rewrite Hrun in Hfig. simpl in Hfig. apply Hfig. discriminate.
Qed.

Lemma figsize_ok_true (size : Q * Q) :
  (0 <= fst size)%Q -> (0 <= snd size)%Q -> figsize_ok size = true.
Proof.
  intros H1 H2. unfold figsize_ok.
  apply andb_true_intro. split; now apply Qle_bool_iff.
Qed.

(** ** The two bar layers *)

Lemma lookup_map {A B} (f : A -> B) (l : list A) (i : nat) :
  map f l !! i = f <$> (l !! i).
Proof.
  revert i; induction l as [|x t IH]; intros [|i]; simpl; try reflexivity.
  apply IH.
Qed.

Lemma layers_order (rs : list row) (r : row) :
  In r rs ->
  drawn_before (layer_B r) (layer_A r) (map layer_B rs ++ map layer_A rs).
Proof.
  intros Hin. apply list_elem_of_In, list_elem_of_lookup in Hin as [i Hi].
  pose proof (lookup_lt_Some _ _ _ Hi) as Hlt.
  exists i, (length rs + i)%nat. split; [lia|]. split.
  - rewrite lookup_app_l by (rewrite length_map; exact Hlt).
    now rewrite lookup_map, Hi.
  - rewrite lookup_app_r by (rewrite length_map; lia).
    rewrite length_map.
    replace (length rs + i - length rs)%nat with i by lia.
    now rewrite lookup_map, Hi.
Qed.

(** C3, as the code has it: once the cleaned frame is there and the
    figure is opened (its size is not negative), [plot] adds for each row
    two bars at vertical position [uid] with left offset [start_num],
    whatever happens afterwards.  The first call draws layer B, of length
    [current_num], without an [alpha] argument, so it is painted with the
    alpha channel of the row's colour; the second call draws layer A, of
    length [start_end], with opacity 0.5.  Layer A is therefore added
    after layer B and painted over it. *)
Theorem bars_layered `{SV : SortValues} `{BE : Backend}
    (self : GanttHelper) (w w' : world) (cdf : frame row) :
  run (cleaned_dataframe_data self) w = (Ok cdf, w') ->
  (0 <= fst (fig_size self))%Q ->
  (0 <= snd (fig_size self))%Q ->
  exists fig,
    figures (snd (run (plot self) w)) = fig :: figures w /\
    patches fig = map layer_B (rows cdf) ++ map layer_A (rows cdf) /\
    Forall (fun r =>
              bar_y (layer_A r) = uid r /\
              bar_width (layer_A r) = inject_Z (start_end r) /\
              bar_left (layer_A r) = start_num r /\
              bar_color (layer_A r) = color r /\
              bar_opacity (layer_A r) = 0.5%Q /\
              bar_y (layer_B r) = uid r /\
              bar_width (layer_B r) = current_num r /\
              bar_left (layer_B r) = start_num r /\
              bar_color (layer_B r) = color r /\
              bar_opacity (layer_B r) = rgba_alpha (to_color (complete (rec r))) /\
              drawn_before (layer_B r) (layer_A r) (patches fig))
           (rows cdf).
Proof.
  intros Hclean Hw Hh.
  apply cleaned_dataframe_data_inv in Hclean as Hinv.
  destruct Hinv as (-> & df & _ & _ & _ & Hcdf).
  destruct (plot_bars self w cdf Hclean (figsize_ok_true _ Hw Hh))
    as (fig & Hfig & _ & _ & Hpatches & _).
  exists fig.
  split; [exact Hfig|]. split; [exact Hpatches|].
  apply List.Forall_forall. intros r Hr.
  repeat (split; [reflexivity|]).
  split.
  - subst cdf. rewrite derived_frame_rows in Hr.
    apply in_map_iff in Hr as (r0 & <- & _). reflexivity.
  - rewrite Hpatches. now apply layers_order.
Qed.

(** The theorem applied to the three-record example document. *)
Lemma bars_layered_example :
  exists cdf,
    run (cleaned_dataframe_data (init "gantt")) (disk gantt_doc)
    = (Ok cdf, disk gantt_doc) /\
    map (fun r => (uid r, start_num r, start_end r)) (rows cdf)
    = [(0%nat, 0, 10); (1%nat, 5, 3); (1%nat, 7, 5)] /\
    exists fig,
      figures (snd (run (plot (init "gantt")) (disk gantt_doc)))
      = fig :: figures (disk gantt_doc) /\
      patches fig = map layer_B (rows cdf) ++ map layer_A (rows cdf) /\
      Forall (fun r =>
                bar_y (layer_A r) = uid r /\
                bar_width (layer_A r) = inject_Z (start_end r) /\
                bar_left (layer_A r) = start_num r /\
                bar_color (layer_A r) = color r /\
                bar_opacity (layer_A r) = 0.5%Q /\
                bar_y (layer_B r) = uid r /\
                bar_width (layer_B r) = current_num r /\
                bar_left (layer_B r) = start_num r /\
                bar_color (layer_B r) = color r /\
                bar_opacity (layer_B r) = rgba_alpha (to_color (complete (rec r))) /\
                drawn_before (layer_B r) (layer_A r) (patches fig))
             (rows cdf).
Proof.
  eexists. split; [vm_compute; reflexivity|]. split; [reflexivity|].
  apply (bars_layered (init "gantt") (disk gantt_doc) (disk gantt_doc)).
  - vm_compute. reflexivity.
  - vm_compute. discriminate.
  - vm_compute. discriminate.
Defined.

(** C3 as stated puts layer B over layer A at opacity 1.  For the single
    unfinished task of [single_doc] the patches are layer B then layer A,
    so layer A is not drawn before layer B, and layer B has the opacity 0.8
    of the red colour. *)
Lemma layer_B_is_drawn_first :
  exists r fig,
    run (cleaned_dataframe_data (init "gantt")) (disk single_doc)
    = (Ok [(0%nat, r)], disk single_doc) /\
    figures (snd (run (plot (init "gantt")) (disk single_doc))) = [fig] /\
    patches fig = [layer_B r; layer_A r] /\
    ~ drawn_before (layer_A r) (layer_B r) (patches fig) /\
    bar_opacity (layer_B r) = 0.8%Q /\
    ~ (bar_opacity (layer_B r) == 1)%Q.
Proof.
  eexists. eexists.
  split; [vm_compute; reflexivity|].
  split; [vm_compute; reflexivity|].
  split; [reflexivity|]. split; [|split; [reflexivity|]].
  - intros (i & j & Hlt & Hi & Hj).
    destruct i as [|[|i]]; destruct j as [|[|j]];
      simpl in Hi, Hj; try lia; try discriminate.
  - vm_compute. discriminate.
Qed.

(** A negative figure size is refused before anything is drawn. *)
Example no_bars_on_a_negative_figure :
  run (plot (mk_GanttHelper "gantt" (Bool false) (Bool false) true 10 (-1, 5)%Q))
      (disk gantt_doc)
  = (Raise ValueError, disk gantt_doc).
Proof. vm_compute. reflexivity. Qed.

(** ** Title and saving *)



(** With the default arguments there is no file name, and the title is
    the text ["False"]. *)
Example title_without_a_file_name :
  exists fig,
    run (plot (init "gantt")) (disk gantt_doc)
    = (Ok tt, mk_world (fs (disk gantt_doc)) [fig]) /\
    title fig = "False"%string.
Proof. eexists. split; [vm_compute; reflexivity|]. reflexivity. Qed.


(** C10: without a file name ([fname] false; in particular with both
    [dir] and [fname] left at [False]) [plot] leaves the file system as it
    found it, whatever else happens: no file is written and no directory
    is made.  The figure, when the data could be loaded, is only among the
    open figures. *)
Theorem no_file_without_fname `{SV : SortValues} `{BE : Backend}
    (self : GanttHelper) (w : world) :
  truthy (fname self) = false ->
  fs (snd (run (plot self) w)) = fs w /\
  (figures (snd (run (plot self) w)) = figures w \/
   exists fig, figures (snd (run (plot self) w)) = fig :: figures w).
Proof.
  intros Hname.
  pose proof (cleaned_dataframe_data_world self w) as Hw.
  destruct (run (cleaned_dataframe_data self) w) as [[cdf|e] w1] eqn:Hclean;
    simpl in Hw; subst w1.
  - rewrite (plot_run self w cdf Hclean). cbv zeta.
    destruct (figsize_ok _); [|split; [reflexivity|now left]].
    destruct (np_arange _ _) as [ticks|e]; [|split; [reflexivity|right; eauto]].
    destruct (date_range _ _ _) as [stamps|e]; [|split; [reflexivity|right; eauto]].
    destruct (Nat.eqb _ _); [|split; [reflexivity|right; eauto]].
    unfold run, save_step. rewrite Hname.
    split; [reflexivity|right; eauto].
  - rewrite (plot_raise self w e) by (now rewrite Hclean).
    split; [reflexivity|now left].
Qed.

(** The theorem applied to the default arguments. *)
Lemma no_file_example :
  fs (snd (run (plot (init "gantt")) (disk gantt_doc))) = fs (disk gantt_doc) /\
  (figures (snd (run (plot (init "gantt")) (disk gantt_doc)))
   = figures (disk gantt_doc) \/
   exists fig,
     figures (snd (run (plot (init "gantt")) (disk gantt_doc)))
     = fig :: figures (disk gantt_doc)).
Proof.
  apply (no_file_without_fname (init "gantt") (disk gantt_doc)).
  reflexivity.
Defined.

(** ** Ticks and their date labels *)

Lemma series_min_unique (l : list Z) (m : Z) :
  In m l -> (forall x, In x l -> m <= x) -> series_min l = m.
Proof.
  intros Hin Hle.
  assert (Hne : l <> []) by (intros ->; inversion Hin).
  pose proof (series_min_le l m Hin).
  pose proof (Hle _ (series_min_in l Hne)). lia.
Qed.

Lemma series_max_unique (l : list Z) (m : Z) :
  In m l -> (forall x, In x l -> x <= m) -> series_max l = m.
Proof.
  intros Hin Hle.
  assert (Hne : l <> []) by (intros ->; inversion Hin).
  pose proof (series_max_ge l m Hin).
  pose proof (Hle _ (series_max_in l Hne)). lia.
Qed.

Lemma series_min_perm (l l' : list Z) :
  Permutation l l' -> series_min l = series_min l'.
Proof.
  intros Hp. destruct l' as [|y t].
  - now apply Permutation_sym, Permutation_nil in Hp as ->.
  - symmetry. apply series_min_unique.
    + apply (Permutation_in _ Hp), series_min_in.
      intros ->. now apply Permutation_nil in Hp.
    + intros x Hx. apply series_min_le.
      now apply (Permutation_in _ (Permutation_sym Hp)).
Qed.

Lemma series_max_perm (l l' : list Z) :
  Permutation l l' -> series_max l = series_max l'.
Proof.
  intros Hp. destruct l' as [|y t].
  - now apply Permutation_sym, Permutation_nil in Hp as ->.
  - symmetry. apply series_max_unique.
    + apply (Permutation_in _ Hp), series_max_in.
      intros ->. now apply Permutation_nil in Hp.
    + intros x Hx. apply series_max_ge.
      now apply (Permutation_in _ (Permutation_sym Hp)).
Qed.

(** The extreme values of the derived columns. *)
Lemma derived_extremes (df : frame record) :
  df <> [] ->
  let rs := rows (derived_frame df) in
  first_start rs = series_min (map start (rows df)) /\
  last_end rs = series_max (map end_ (rows df)) /\
  series_min (map start_num rs) = 0 /\
  series_max (map end_num rs) = last_end rs - first_start rs.
Proof.
  intros Hne. cbv zeta.
  assert (Hfs : first_start (rows (derived_frame df))
                = series_min (map start (rows df))).
  { unfold first_start. now rewrite derived_frame_rows, map_map. }
  assert (Hle : last_end (rows (derived_frame df))
                = series_max (map end_ (rows df))).
  { unfold last_end. now rewrite derived_frame_rows, map_map. }
  rewrite Hfs, Hle.
  rewrite derived_frame_rows, !map_map. cbn [rec derived_row start_num end_num].
  assert (Hs : map start (rows df) <> []).
  { unfold rows. destruct df; [congruence|discriminate]. }
  assert (He : map end_ (rows df) <> []).
  { unfold rows. destruct df; [congruence|discriminate]. }
  pose proof (series_min_in _ Hs) as Hmin.
  pose proof (series_max_in _ He) as Hmax.
  apply in_map_iff in Hmin as (r1 & Hr1 & Hin1).
  apply in_map_iff in Hmax as (r2 & Hr2 & Hin2).
  split; [reflexivity|]. split; [reflexivity|]. split.
  - apply series_min_unique.
    + apply in_map_iff. exists r1. split; [lia|exact Hin1].
    + intros x Hx. apply in_map_iff in Hx as (r & <- & Hr).
      pose proof (series_min_le _ _ (in_map start _ _ Hr)). lia.
  - apply series_max_unique.
    + apply in_map_iff. exists r2. split; [lia|exact Hin2].
    + intros x Hx. apply in_map_iff in Hx as (r & <- & Hr).
      pose proof (series_max_ge _ _ (in_map end_ _ _ Hr)). lia.
Qed.

(** *** Floats that are integers *)






(** *** [np.arange] *)




(** *** [pd.date_range] *)











(** *** The shape of a date label *)

Lemma length_append (a b : string) :
  String.length (a +:+ b) = (String.length a + String.length b)%nat.
Proof. induction a as [|c a IH]; simpl; [reflexivity|]. now rewrite <- IH. Qed.






(** For the single task of [milestone_doc], which starts and ends on the
    same day, the step is zero: [np.arange] raises, [plot] stops there,
    and the figure it leaves has neither ticks nor labels. *)
Example no_ticks_when_span_is_zero :
  exists cdf fig,
    run (cleaned_dataframe_data (init "gantt")) (disk milestone_doc)
    = (Ok cdf, disk milestone_doc) /\
    tick_step (init "gantt") (rows cdf) = Finite 0 /\
    run (plot (init "gantt")) (disk milestone_doc)
    = (Raise ValueError, mk_world (fs (disk milestone_doc)) [fig]) /\
    xticks fig = None /\
    xticklabels fig = None.
Proof.
  eexists. eexists. split; [vm_compute; reflexivity|].
  split; [vm_compute; reflexivity|].
  split; [vm_compute; reflexivity|]. split; reflexivity.
Qed.

(** With a task of 26 days and fifteen ticks the eighth label is
    2018-07-02: the binary64 product [7 * (26 days / 14)] lies just below
    13 days. *)
Example eighth_label_of_a_26_day_chart :
  result_bind (date_range (ymd2ord 2018 6 20) (ymd2ord 2018 7 16) 15)
              (fun stamps => Ok (tick_labels stamps !! 7%nat))
  = Ok (Some "2018-07-02"%string) /\
  strftime_ymd (ymd2ord 2018 6 20 + 13) = "2018-07-03"%string.
Proof. split; vm_compute; reflexivity. Qed.

(** Dates that pandas' clock cannot hold have no date range. *)
Example no_date_range_before_1677 :
  date_range (ymd2ord 1677 9 21) (ymd2ord 2018 7 2) 10 = Raise OutOfBoundsDatetime /\
  date_range (ymd2ord 2018 7 2) (ymd2ord 2262 4 12) 10 = Raise OutOfBoundsDatetime.
Proof. split; vm_compute; reflexivity. Qed.

(** Without ticks to draw ([x_ticks_num = 0]) the step is infinite,
    [np.arange] yields the single tick 0, and there is no label for it. *)
Example one_tick_for_no_labels :
  np_arange 12 (true_divide 12 0) = Ok [Finite 0] /\
  date_range (ymd2ord 2018 6 20) (ymd2ord 2018 7 2) 0 = Ok [].
Proof. split; vm_compute; reflexivity. Qed.

(** ** Paths *)

Lemma append_cons (c : Ascii.ascii) (a b : string) :
  String c a +:+ b = String c (a +:+ b).
Proof. reflexivity. Qed.

Lemma append_assoc (a b c : string) : (a +:+ b) +:+ c = a +:+ (b +:+ c).
Proof.
  induction a as [|x a IH]; [reflexivity|].
  rewrite !append_cons. now f_equal.
Qed.

Lemma append_nil_r (a : string) : a +:+ EmptyString = a.
Proof.
  induction a as [|x a IH]; [reflexivity|].
  rewrite append_cons. now f_equal.
Qed.


Lemma flush_name (s : string) :
  s <> EmptyString -> s <> "."%string -> flush s = [s].
Proof.
  intros H1 H2. unfold flush.
  destruct (String.eqb_spec s EmptyString); [congruence|].
  destruct (String.eqb_spec s "."); [congruence|reflexivity].
Qed.

Lemma components_from_name (s cur : string) :
  has_slash s = false ->
  cur +:+ s <> EmptyString ->
  cur +:+ s <> "."%string ->
  components_from cur s = [cur +:+ s].
Proof.
  revert cur; induction s as [|c s IH]; intros cur Hs Hne Hdot.
  - rewrite append_nil_r in *. cbn [components_from]. now apply flush_name.
  - cbn [has_slash] in Hs. apply orb_false_iff in Hs as [Hc Hs].
    cbn [components_from]. rewrite Hc.
    rewrite IH; [|exact Hs| |].
    + now rewrite append_assoc.
    + now rewrite append_assoc.
    + now rewrite append_assoc.
Qed.









(** The prefixes of a path are its non-empty initial segments. *)
Lemma prefixes_from_spec (pre p q : path) :
  In q (prefixes_from pre p) <->
  exists a rest, a <> [] /\ p = a ++ rest /\ q = pre ++ a.
Proof.
  revert pre; induction p as [|c t IH]; intros pre; simpl.
  - split; [intros []|]. intros (a & rest & Ha & Hp & _).
    destruct a; [congruence|discriminate].
  - rewrite IH. split.
    + intros [<-|(a & rest & Ha & -> & ->)].
      * exists [c], t. split; [discriminate|]. split; reflexivity.
      * exists (c :: a), rest. split; [discriminate|].
        split; [reflexivity|]. now rewrite <- app_assoc.
    + intros (a & rest & Ha & Hp & ->).
      destruct a as [|c' a]; [congruence|]. simpl in Hp. injection Hp as <- ->.
      destruct a as [|c'' a]; [now left|]. right.
      exists (c'' :: a), rest. split; [discriminate|].
      split; [reflexivity|]. now rewrite <- app_assoc.
Qed.

Lemma prefixes_spec (p q : path) :
  In q (prefixes p) <-> q <> [] /\ exists rest, p = q ++ rest.
Proof.
  unfold prefixes. rewrite prefixes_from_spec. split.
  - intros (a & rest & Ha & -> & ->). split; [exact Ha|]. now exists rest.
  - intros (Hq & rest & ->). now exists q, rest.
Qed.



Lemma prefixes_from_snoc (pre p : path) (x : string) :
  prefixes_from pre (p ++ [x]) = prefixes_from pre p ++ [pre ++ p ++ [x]].
Proof.
  revert pre; induction p as [|c t IH]; intros pre; simpl; [reflexivity|].
  rewrite IH. f_equal. f_equal. f_equal. now rewrite <- app_assoc.
Qed.

(** What lies above [<dir>/<name>] is the directory and what lies above
    it. *)
Lemma proper_prefixes_snoc (p : path) (x : string) :
  removelast (prefixes (p ++ [x])) = prefixes p.
Proof.
  unfold prefixes. rewrite prefixes_from_snoc. apply removelast_last.
Qed.

Example parse_path_examples :
  parse_path "out/Images" = ["out"; "Images"]%string /\
  parse_path "/srv/charts/" = ["/"; "srv"; "charts"]%string /\
  parse_path "./Gantt.png" = parse_path "Gantt.png" /\
  parse_path "." = [] /\
  prefixes ["out"; "Images"; "2018"]%string
  = [["out"]; ["out"; "Images"]; ["out"; "Images"; "2018"]]%string.
Proof. repeat split. Qed.

(** ** Making the directory and saving *)











(** In a working directory that holds only [gantt.toml] the call of the
    docstring makes [Images] and writes [Images/Gantt.png]. *)
Example images_gantt_png :
  let w' := snd (run (plot gantt_to_images) (disk gantt_doc)) in
  fst (run (plot gantt_to_images) (disk gantt_doc)) = Ok tt /\
  bool_decide (["Images"%string] ∈ dirs (fs w')) = true /\
  match files (fs w') !! ["Images"; "Gantt.png"]%string with
  | Some (ImageFile format bbox fig) =>
      format = "png"%string /\ bbox = "tight"%string /\ figures w' = [fig]
  | _ => False
  end.
Proof.
  cbv zeta. split; [vm_compute; reflexivity|].
  split; [vm_compute; reflexivity|].
  vm_compute. split; [reflexivity|]. split; reflexivity.
Qed.

(** A second call, which finds [Images] in place, raises nothing, keeps
    the directories as they are and writes the file again. *)
Example images_exists_already :
  let w1 := snd (run (plot gantt_to_images) (disk gantt_doc)) in
  let w2 := snd (run (plot gantt_to_images) w1) in
  fst (run (plot gantt_to_images) w1) = Ok tt /\
  dirs (fs w2) = dirs (fs w1) /\
  match files (fs w2) !! ["Images"; "Gantt.png"]%string with
  | Some (ImageFile format _ _) => format = "png"%string
  | _ => False
  end.
Proof.
  cbv zeta. split; [vm_compute; reflexivity|].
  split; [vm_compute; reflexivity|].
  vm_compute. reflexivity.
Qed.

(** A regular file named like the directory is in the way: [makedirs]
    raises and nothing is written.  A regular file further up makes the
    [mkdir] of the next directory fail. *)
Example images_is_a_file :
  let w := mk_world (mk_fs ∅ (<[ ["Images"%string] := TomlFile [] ]>
                                (files (fs (disk gantt_doc))))) [] in
  let w2 := mk_world (mk_fs ∅ (<[ ["out"%string] := TomlFile [] ]>
                                 (files (fs (disk gantt_doc))))) [] in
  fst (run (plot gantt_to_images) w) = Raise (FileExistsError ["Images"%string]) /\
  fs (snd (run (plot gantt_to_images) w)) = fs w /\
  fst (run (plot gantt_to_nested) w2)
  = Raise (NotADirectoryError ["out"; "Images"]%string) /\
  fs (snd (run (plot gantt_to_nested) w2)) = fs w2.
Proof. cbv zeta. repeat split; vm_compute; reflexivity. Qed.

(** * Further properties of the class *)

(** ** Loading: a missing or empty source *)

(** What lies strictly above a path. *)
Lemma proper_prefixes_spec (p q : path) :
  In q (removelast (prefixes p)) ->
  q <> [] /\ exists rest, rest <> [] /\ p = q ++ rest.
Proof.
  destruct p as [|x p' _] using rev_ind; [intros []|].
  rewrite proper_prefixes_snoc. intros Hq.
  apply prefixes_spec in Hq as (Hne & rest & ->).
  split; [exact Hne|]. exists (rest ++ [x]).
  split; [now destruct rest|]. now rewrite app_assoc.
Qed.

(** X1: when nothing is found at [<src>.toml] - no file, no directory of
    that name, and no regular file where the path needs a directory - and
    the name has no [..] component, [plot] raises [FileNotFoundError] for that path before anything is
    drawn: no figure is opened and the file system is untouched. *)
Theorem plot_missing_source `{SV : SortValues} `{BE : Backend}
    (self : GanttHelper) (w : world) :
  files (fs w) !! parse_path (src self +:+ ".toml") = None ->
  parse_path (src self +:+ ".toml") ∉ dirs (fs w) ->
  (forall q rest : path, q <> [] -> rest <> [] ->
     parse_path (src self +:+ ".toml") = q ++ rest -> files (fs w) !! q = None) ->
  ~ In ".."%string (parse_path (src self +:+ ".toml")) ->
  run (toml_data self) w
  = (Raise (FileNotFoundError (parse_path (src self +:+ ".toml"))), w) /\
  run (cleaned_dataframe_data self) w
  = (Raise (FileNotFoundError (parse_path (src self +:+ ".toml"))), w) /\
  run (plot self) w
  = (Raise (FileNotFoundError (parse_path (src self +:+ ".toml"))), w).
Proof.
  intros Hnone Hnodir Hway _.
  assert (Ht : run (toml_data self) w
               = (Raise (FileNotFoundError (parse_path (src self +:+ ".toml"))), w)).
  { unfold run, toml_data, toml_load. rewrite Hnone.
    rewrite bool_decide_false by exact Hnodir.
    destruct (file_in_the_way _ _) eqn:Hfile; [|reflexivity].
    exfalso. unfold file_in_the_way in Hfile.
    apply List.existsb_exists in Hfile as (q & Hq & Hfile).
    apply proper_prefixes_spec in Hq as (Hne & rest & Hrest & Hp).
    unfold is_file in Hfile. apply bool_decide_eq_true in Hfile.
    destruct Hfile as [x Hx].
    pose proof (Hway q rest Hne Hrest Hp) as Hq. congruence. }
  assert (Hc : run (cleaned_dataframe_data self) w
               = (Raise (FileNotFoundError (parse_path (src self +:+ ".toml"))), w)).
  { unfold run in *. unfold cleaned_dataframe_data, raw_dataframe_data, bind.
    now rewrite Ht. }
  split; [exact Ht|]. split; [exact Hc|].
  apply plot_raise. now rewrite Hc.
Qed.

(** The theorem applied to a source name that is not on the disk. *)
Lemma plot_missing_source_example :
  parse_path ("absent" +:+ ".toml") = ["absent.toml"%string] /\
  run (toml_data (init "absent")) (disk gantt_doc)
  = (Raise (FileNotFoundError (parse_path ("absent" +:+ ".toml"))), disk gantt_doc) /\
  run (cleaned_dataframe_data (init "absent")) (disk gantt_doc)
  = (Raise (FileNotFoundError (parse_path ("absent" +:+ ".toml"))), disk gantt_doc) /\
  run (plot (init "absent")) (disk gantt_doc)
  = (Raise (FileNotFoundError (parse_path ("absent" +:+ ".toml"))), disk gantt_doc).
Proof.
  split; [reflexivity|].
  apply (plot_missing_source (init "absent") (disk gantt_doc)).
  - vm_compute. reflexivity.
  - apply not_elem_of_empty.
  - intros q rest Hq Hrest Hp. change (["absent.toml"%string] = q ++ rest) in Hp.
    destruct q as [|a q]; [congruence|]. destruct q; [|destruct q; discriminate].
    destruct rest; [congruence|discriminate].
  - vm_compute. intros [H|[]]. discriminate.
Defined.

(** A source name that runs through a regular file is not "not found":
    with a regular file [a], the source [a/b] raises
    [NotADirectoryError]. *)
Example source_below_a_regular_file :
  let w := mk_world (mk_fs ∅ {[ ["a"%string] := TomlFile [] ]}) [] in
  run (plot (init "a/b")) w = (Raise (NotADirectoryError ["a"; "b.toml"]%string), w).
Proof. vm_compute. reflexivity. Qed.

(** X2: a source file without any record stops [plot] before anything is
    drawn: sorting the column-less frame raises [KeyError] for [start]
    when [sort_by_start] is set, and reading [df.start] raises
    [AttributeError] when it is not.  No division is reached. *)
Theorem plot_empty_document `{SV : SortValues} `{BE : Backend}
    (self : GanttHelper) (w : world) :
  files (fs w) !! parse_path (src self +:+ ".toml") = Some (TomlFile []) ->
  run (raw_dataframe_data self) w
  = ((if sort_by_start self then Raise (KeyError "start") else Ok []), w) /\
  run (plot self) w
  = (Raise (if sort_by_start self then KeyError "start" else AttributeError "start"),
     w).
Proof.
  intros Hf. apply toml_data_run in Hf.
  assert (Hraw : run (raw_dataframe_data self) w
                 = ((if sort_by_start self then Raise (KeyError "start") else Ok []),
                    w)).
  { unfold run in *. unfold raw_dataframe_data, bind. rewrite Hf.
    destruct (sort_by_start self); reflexivity. }
  split; [exact Hraw|].
  apply plot_raise. unfold run in *. unfold cleaned_dataframe_data, bind.
  rewrite Hraw. destruct (sort_by_start self); reflexivity.
Qed.

(** The theorem applied to an empty [gantt.toml]. *)
Lemma plot_empty_document_example :
  run (raw_dataframe_data (init "gantt")) (disk [])
  = ((if sort_by_start (init "gantt") then Raise (KeyError "start") else Ok []),
     disk []) /\
  run (plot (init "gantt")) (disk [])
  = (Raise (if sort_by_start (init "gantt")
            then KeyError "start" else AttributeError "start"),
     disk []).
Proof.
  apply (plot_empty_document (init "gantt") (disk [])).
  vm_compute. reflexivity.
Defined.

(** ** The derived columns *)

(** X3: in every row of a cleaned frame [end_num = start_num + start_end],
    which is the number of days from the earliest start of the table to
    the row's end; [end_num >= start_num] exactly for the rows whose end
    is not before their start; and the largest [end_num] is the span from
    the earliest start to the latest end. *)
Theorem end_num_is_offset_of_end `{SV : SortValues}
    (self : GanttHelper) (w w' : world) (cdf : frame row) :
  run (cleaned_dataframe_data self) w = (Ok cdf, w') ->
  exists lo hi : Z,
    (forall r, In r (rows cdf) -> lo <= start (rec r) /\ end_ (rec r) <= hi) /\
    (exists r, In r (rows cdf) /\ start (rec r) = lo) /\
    (exists r, In r (rows cdf) /\ end_ (rec r) = hi) /\
    Forall (fun r =>
              end_num r = start_num r + start_end r /\
              start_num r = start (rec r) - lo /\
              end_num r = end_ (rec r) - lo /\
              (start_num r <= end_num r <-> start (rec r) <= end_ (rec r)))
           (rows cdf) /\
    series_max (map end_num (rows cdf)) = hi - lo.
Proof.
  intros Hrun.
  apply cleaned_dataframe_data_inv in Hrun as (_ & df & _ & Hne0 & _ & ->).
  destruct (derived_extremes df Hne0) as (Hfs & Hle & _ & Hmax).
  rewrite Hfs, Hle in Hmax.
  assert (Hs : map start (rows df) <> []).
  { unfold rows. destruct df; [congruence|discriminate]. }
  assert (He : map end_ (rows df) <> []).
  { unfold rows. destruct df; [congruence|discriminate]. }
  exists (series_min (map start (rows df))), (series_max (map end_ (rows df))).
  rewrite derived_frame_rows in *.
  split; [|split; [|split; [|split; [|exact Hmax]]]].
  - intros r' Hr'. apply in_map_iff in Hr' as (r & <- & Hr). simpl. split.
    + apply series_min_le. now apply in_map.
    + apply series_max_ge. now apply in_map.
  - pose proof (series_min_in _ Hs) as Hin.
    apply in_map_iff in Hin as (r & Hr & Hin).
    exists (derived_row df r). split; [now apply in_map|exact Hr].
  - pose proof (series_max_in _ He) as Hin.
    apply in_map_iff in Hin as (r & Hr & Hin).
    exists (derived_row df r). split; [now apply in_map|exact Hr].
  - apply List.Forall_map, List.Forall_forall. intros r _.
    cbn [derived_row end_num start_num start_end rec].
    split; [reflexivity|]. split; [reflexivity|]. split; lia.
Qed.

(** The theorem applied to the three-record example document. *)
Lemma end_num_example :
  exists cdf,
    run (cleaned_dataframe_data (init "gantt")) (disk gantt_doc)
    = (Ok cdf, disk gantt_doc) /\
    map end_num (rows cdf) = [10; 8; 12] /\
    exists lo hi : Z,
      (forall r, In r (rows cdf) -> lo <= start (rec r) /\ end_ (rec r) <= hi) /\
      (exists r, In r (rows cdf) /\ start (rec r) = lo) /\
      (exists r, In r (rows cdf) /\ end_ (rec r) = hi) /\
      Forall (fun r =>
                end_num r = start_num r + start_end r /\
                start_num r = start (rec r) - lo /\
                end_num r = end_ (rec r) - lo /\
                (start_num r <= end_num r <-> start (rec r) <= end_ (rec r)))
             (rows cdf) /\
      series_max (map end_num (rows cdf)) = hi - lo.
Proof.
  eexists. split; [vm_compute; reflexivity|]. split; [reflexivity|].
  apply (end_num_is_offset_of_end (init "gantt") (disk gantt_doc) (disk gantt_doc)).
  vm_compute. reflexivity.
Defined.

(** X4: a cleaned frame only adds columns: it has one row per record of
    the document under the index 0..n-1, its records are those of the
    document (in document order when [sort_by_start] is off), and the
    colour of each row is the colour of its completion. *)
Theorem cleaned_frame_keeps_records `{SV : SortValues}
    (self : GanttHelper) (w w' : world) (cdf : frame row) :
  run (cleaned_dataframe_data self) w = (Ok cdf, w') ->
  w' = w /\
  exists doc df,
    files (fs w) !! parse_path (src self +:+ ".toml") = Some (TomlFile doc) /\
    run (raw_dataframe_data self) w = (Ok df, w) /\
    labels cdf = seq 0 (length doc) /\
    labels cdf = labels df /\
    map rec (rows cdf) = rows df /\
    Permutation (map rec (rows cdf)) (map snd doc) /\
    (sort_by_start self = false -> map rec (rows cdf) = map snd doc) /\
    Forall (fun r => color r = to_color (complete (rec r))) (rows cdf).
Proof.
  intros Hrun.
  apply cleaned_frame_inv in Hrun
    as (-> & doc & df & Hf & _ & Hraw & _ & Hl & Hperm & _ & Hunsorted & _ & ->).
  split; [reflexivity|]. exists doc, df.
  split; [exact Hf|]. split; [exact Hraw|].
  rewrite derived_frame_labels, derived_frame_recs.
  split; [exact Hl|]. split; [reflexivity|]. split; [reflexivity|].
  split; [exact Hperm|]. split; [exact Hunsorted|].
  rewrite derived_frame_rows.
  apply List.Forall_map, List.Forall_forall. intros r _. reflexivity.
Qed.

(** The theorem applied to the three-record example document. *)
Lemma cleaned_frame_example :
  exists cdf,
    run (cleaned_dataframe_data (init "gantt")) (disk gantt_doc)
    = (Ok cdf, disk gantt_doc) /\
    labels cdf = [0; 1; 2]%nat /\
    disk gantt_doc = disk gantt_doc /\
    exists doc df,
      files (fs (disk gantt_doc)) !! parse_path (src (init "gantt") +:+ ".toml")
      = Some (TomlFile doc) /\
      run (raw_dataframe_data (init "gantt")) (disk gantt_doc) = (Ok df, disk gantt_doc) /\
      labels cdf = seq 0 (length doc) /\
      labels cdf = labels df /\
      map rec (rows cdf) = rows df /\
      Permutation (map rec (rows cdf)) (map snd doc) /\
      (sort_by_start (init "gantt") = false -> map rec (rows cdf) = map snd doc) /\
      Forall (fun r => color r = to_color (complete (rec r))) (rows cdf).
Proof.
  eexists. split; [vm_compute; reflexivity|]. split; [reflexivity|].
  apply (cleaned_frame_keeps_records (init "gantt") (disk gantt_doc) (disk gantt_doc)).
  vm_compute. reflexivity.
Defined.

(** X5: whatever integer it is given, [to_color] returns a colour
    matplotlib accepts: the four components lie between 0 and 1, and the
    alpha is above 0.6, so no bar is invisible. *)
Theorem to_color_is_valid_rgba (x : Z) :
  let '(r, g, b, a) := to_color x in
  (0 <= r)%Q /\ (r <= 1)%Q /\ (0 <= g)%Q /\ (g <= 1)%Q /\
  (0 <= b)%Q /\ (b <= 1)%Q /\ (6 # 10 < a)%Q /\ (a <= 1)%Q.
Proof.
  unfold to_color.
  destruct (Z.eqb_spec x 100); [repeat split; unfold Qle, Qlt; simpl; lia|].
  destruct (Z.ltb_spec x 100); destruct (Z.gtb_spec x 60); simpl;
    repeat split; unfold Qle, Qlt; simpl; lia.
Qed.

Lemma StronglySorted_impl {A} (R S : A -> A -> Prop) (l : list A) :
  (forall a b, R a b -> S a b) -> StronglySorted R l -> StronglySorted S l.
Proof.
  intros Himp. induction 1 as [|x t Hs IH Hx]; constructor; [exact IH|].
  eapply Forall_impl; [exact Hx|]. intros y. apply Himp.
Qed.

(** X6: with [sort_by_start] the offsets [start_num] of a cleaned frame
    never decrease from one row to the next, and the first row starts at
    offset 0. *)
Theorem sorted_offsets_ascend `{SV : SortValues}
    (self : GanttHelper) (w w' : world) (cdf : frame row) :
  run (cleaned_dataframe_data self) w = (Ok cdf, w') ->
  sort_by_start self = true ->
  StronglySorted (fun a b => start_num a <= start_num b) (rows cdf) /\
  exists r rest, rows cdf = r :: rest /\ start_num r = 0.
Proof.
  intros Hrun Hsort.
  apply cleaned_frame_inv in Hrun
    as (_ & doc & df & _ & _ & _ & Hne0 & _ & _ & Hsorted & _ & _ & ->).
  specialize (Hsorted Hsort).
  rewrite derived_frame_rows. split.
  - apply StronglySorted_map.
    eapply StronglySorted_impl; [|exact Hsorted].
    intros a b Hab. cbv beta in *.
    cbn [derived_row start_num]. lia.
  - destruct (rows df) as [|r0 rest] eqn:Hrows.
    { unfold rows in Hrows. destruct df; [congruence|discriminate]. }
    exists (derived_row df r0), (map (derived_row df) rest).
    split; [reflexivity|]. simpl. rewrite Hrows.
    apply StronglySorted_inv in Hsorted as [_ Hleast].
    rewrite List.Forall_forall in Hleast.
    rewrite (series_min_unique (map start (r0 :: rest)) (start r0)); [lia|now left|].
    intros x [<-|Hx]; [lia|].
    apply in_map_iff in Hx as (r & <- & Hr). now apply Hleast.
Qed.

(** The theorem applied to the three-record example document. *)
Lemma sorted_offsets_example :
  exists cdf,
    run (cleaned_dataframe_data (init "gantt")) (disk gantt_doc)
    = (Ok cdf, disk gantt_doc) /\
    map start_num (rows cdf) = [0; 5; 7] /\
    StronglySorted (fun a b => start_num a <= start_num b) (rows cdf) /\
    exists r rest, rows cdf = r :: rest /\ start_num r = 0.
Proof.
  eexists. split; [vm_compute; reflexivity|]. split; [reflexivity|].
  apply (sorted_offsets_ascend (init "gantt") (disk gantt_doc) (disk gantt_doc)).
  - vm_compute. reflexivity.
  - reflexivity.
Defined.

(** ** Vertical positions and the category axis *)

Lemma unique_from_length (seen l : list string) :
  (length (unique_from seen l) <= length l)%nat.
Proof.
  revert seen; induction l as [|x t IH]; intros seen; simpl; [lia|].
  case_bool_decide; simpl.
  - specialize (IH seen). lia.
  - specialize (IH (x :: seen)). lia.
Qed.

Lemma NoDup_list_index (l : list string) (i : nat) (x : string) :
  NoDup l -> l !! i = Some x -> list_index x l = Some i.
Proof.
  intros Hnd. revert i; induction Hnd as [|y t Hy Hnd IH]; intros i Hi.
  - discriminate.
  - destruct i as [|j]; simpl in *.
    + injection Hi as ->. now rewrite String.eqb_refl.
    + destruct (String.eqb_spec y x) as [->|Hne].
      * exfalso. apply Hy. apply list_elem_of_lookup. eauto.
      * now rewrite (IH j Hi).
Qed.

Lemma category_position_lt (l : list string) (x : string) :
  x ∈ l -> (category_position l x < length l)%nat.
Proof.
  intros Hin. eapply lookup_lt_Some. now apply category_position_lookup.
Qed.

(** X7: once the cleaned frame is there and the figure is opened, the
    categories of the y axis are the distinct task labels in order of
    first appearance; there are between 1 and n of them; every [uid] and
    every bar position is below their number, every position below it is
    the [uid] of some row, and the first row has [uid] 0. *)
Theorem uid_covers_axis_positions `{SV : SortValues} `{BE : Backend}
    (self : GanttHelper) (w w' : world) (cdf : frame row) :
  run (cleaned_dataframe_data self) w = (Ok cdf, w') ->
  (0 <= fst (fig_size self))%Q ->
  (0 <= snd (fig_size self))%Q ->
  exists fig,
    figures (snd (run (plot self) w)) = fig :: figures w /\
    categories fig = unique (map (fun r => task (rec r)) (rows cdf)) /\
    (1 <= length (categories fig) <= length cdf)%nat /\
    Forall (fun r => (uid r < length (categories fig))%nat) (rows cdf) /\
    Forall (fun b => (bar_y b < length (categories fig))%nat) (patches fig) /\
    (forall i, (i < length (categories fig))%nat ->
       exists r, In r (rows cdf) /\ uid r = i /\
                 categories fig !! i = Some (task (rec r))) /\
    (exists r rest, rows cdf = r :: rest /\ uid r = O).
Proof.
  intros Hclean Hw Hh.
  apply cleaned_dataframe_data_inv in Hclean as Hinv.
  destruct Hinv as (-> & df & _ & Hne0 & _ & Hcdf).
  destruct (plot_bars self w cdf Hclean (figsize_ok_true _ Hw Hh))
    as (fig & Hfig & _ & Hcats & Hpatches & _).
  subst cdf.
  destruct (derived_rows_positions df) as [Htasks _]. simpl in Htasks.
  exists fig. split; [exact Hfig|].
  rewrite Hcats, Hpatches. cbn [bars_figure categories patches].
  rewrite Htasks.
  assert (Hlen : length (rows df) = length (derived_frame df)).
  { unfold rows, derived_frame. now rewrite !length_map. }
  assert (Hrows : rows df <> []).
  { unfold rows. destruct df; [congruence|discriminate]. }
  assert (Huid : forall r, In r (rows (derived_frame df)) ->
                   (uid r < length (unique (map task (rows df))))%nat).
  { intros r Hr. rewrite derived_frame_rows in Hr.
    apply in_map_iff in Hr as (r0 & <- & Hr0). simpl. unfold uid_of.
    apply category_position_lt, unique_elem, list_elem_of_In.
    now apply in_map. }
  split; [reflexivity|]. split; [split|].
  - destruct (rows df) as [|r0 rest]; [congruence|].
    unfold unique. simpl. lia.
  - pose proof (unique_from_length [] (map task (rows df))) as Hu.
    unfold unique. rewrite length_map in Hu. lia.
  - split; [now apply List.Forall_forall|]. split; [|split].
    + apply List.Forall_app. split; apply List.Forall_map, List.Forall_forall;
        intros r Hr; simpl; now apply Huid.
    + intros i Hi.
      destruct (lookup_lt_is_Some_2 _ _ Hi) as [x Hx].
      assert (Hin : x ∈ map task (rows df)).
      { apply unique_elem, list_elem_of_lookup. eauto. }
      apply list_elem_of_In, in_map_iff in Hin as (r0 & <- & Hr0).
      exists (derived_row df r0). split; [|split].
      * rewrite derived_frame_rows. now apply in_map.
      * simpl. unfold uid_of, category_position.
        now rewrite (NoDup_list_index _ i _ (unique_NoDup _) Hx).
      * exact Hx.
    + rewrite derived_frame_rows.
      destruct (rows df) as [|r0 rest] eqn:Hr0; [congruence|].
      exists (derived_row df r0), (map (derived_row df) rest).
      split; [reflexivity|]. simpl. unfold uid_of, category_position.
      rewrite Hr0. unfold unique. simpl. now rewrite String.eqb_refl.
Qed.

(** The theorem applied to the three-record example document: the axis
    has the categories B and A. *)
Lemma uid_axis_example :
  exists cdf,
    run (cleaned_dataframe_data (init "gantt")) (disk gantt_doc)
    = (Ok cdf, disk gantt_doc) /\
    unique (map (fun r => task (rec r)) (rows cdf)) = ["B"; "A"]%string /\
    exists fig,
      figures (snd (run (plot (init "gantt")) (disk gantt_doc)))
      = fig :: figures (disk gantt_doc) /\
      categories fig = unique (map (fun r => task (rec r)) (rows cdf)) /\
      (1 <= length (categories fig) <= length cdf)%nat /\
      Forall (fun r => (uid r < length (categories fig))%nat) (rows cdf) /\
      Forall (fun b => (bar_y b < length (categories fig))%nat) (patches fig) /\
      (forall i, (i < length (categories fig))%nat ->
         exists r, In r (rows cdf) /\ uid r = i /\
                   categories fig !! i = Some (task (rec r))) /\
      (exists r rest, rows cdf = r :: rest /\ uid r = O).
Proof.
  eexists. split; [vm_compute; reflexivity|]. split; [reflexivity|].
  apply (uid_covers_axis_positions (init "gantt") (disk gantt_doc) (disk gantt_doc)).
  - vm_compute. reflexivity.
  - vm_compute. discriminate.
  - vm_compute. discriminate.
Defined.

(** ** Labels and figures *)

Lemma Forall2_map_self {A B} (P : A -> B -> Prop) (f : A -> B) (l : list A) :
  (forall x, In x l -> P x (f x)) -> Forall2 P l (map f l).
Proof.
  induction l as [|x t IH]; intros Hall; simpl; constructor.
  - apply Hall. now left.
  - apply IH. intros y Hy. apply Hall. now right.
Qed.

Lemma label_right_of_end (e m : Z) :
  0 <= m -> (inject_Z e <= inject_Z e + inject_Z m * 0.01)%Q.
Proof.
  intros Hm. unfold Qle, Qplus, Qmult, inject_Z; simpl. lia.
Qed.

(** The decimal text of an integer reads back as that integer. *)
Lemma str_int_reads_back (z : Z) :
  option_map Z.of_int (NilZero.int_of_string (str_int z)) = Some z.
Proof.
  unfold str_int. rewrite NilZero.isi.
  - simpl. now rewrite DecimalZ.of_to.
  - destruct z; simpl; try discriminate.
    intros [= H]. now apply DecimalPos.Unsigned.to_uint_nonnil in H.
  - destruct z; simpl; try discriminate.
    intros [= H]. now apply DecimalPos.Unsigned.to_uint_nonnil in H.
Qed.

(** X8: once the cleaned frame is there and the figure is opened, [plot]
    adds two bars and one text per row.  The texts come in row order; the
    text of a row shows its completion in decimal followed by a percent
    sign, is centred on the vertical position of the row's bars, and
    stands at [end_num] plus one hundredth of the longest duration, which
    is at or to the right of the end of the bar as soon as one row has an
    end date that is not before its start date. *)
Theorem labels_follow_rows `{SV : SortValues} `{BE : Backend}
    (self : GanttHelper) (w w' : world) (cdf : frame row) :
  run (cleaned_dataframe_data self) w = (Ok cdf, w') ->
  (0 <= fst (fig_size self))%Q ->
  (0 <= snd (fig_size self))%Q ->
  exists fig,
    figures (snd (run (plot self) w)) = fig :: figures w /\
    length (patches fig) = (2 * length cdf)%nat /\
    length (texts fig) = length cdf /\
    Forall2 (fun r t =>
               (exists digits,
                   text_s t = digits +:+ "%" /\
                   option_map Z.of_int (NilZero.int_of_string digits)
                   = Some (int64_val (complete (rec r)))) /\
               text_va t = "center"%string /\
               text_y t = uid r /\
               text_y t = bar_y (layer_A r) /\
               text_y t = bar_y (layer_B r) /\
               text_x t = (inject_Z (end_num r)
                           + inject_Z (series_max (map start_end (rows cdf))) * 0.01)%Q /\
               ((exists r', In r' (rows cdf) /\ start (rec r') <= end_ (rec r')) ->
                (inject_Z (end_num r) <= text_x t)%Q))
            (rows cdf) (texts fig).
Proof.
  intros Hclean Hw Hh.
  apply cleaned_dataframe_data_inv in Hclean as Hinv.
  destruct Hinv as (-> & df & _ & _ & _ & Hcdf).
  destruct (plot_bars self w cdf Hclean (figsize_ok_true _ Hw Hh))
    as (fig & Hfig & _ & _ & Hpatches & Htexts).
  exists fig. split; [exact Hfig|].
  rewrite Hpatches, Htexts. cbn [bars_figure patches texts].
  assert (Hlen : length (rows cdf) = length cdf).
  { unfold rows. now rewrite length_map. }
  split; [rewrite length_app, !length_map; lia|].
  split; [now rewrite length_map|].
  apply Forall2_map_self. intros r Hr.
  split.
  { eexists. split; [reflexivity|]. apply str_int_reads_back. }
  repeat (split; [reflexivity|]).
  intros (r' & Hr' & Hle). cbn [label_of text_x].
  apply label_right_of_end.
  pose proof (series_max_ge _ _ (in_map start_end _ _ Hr')) as Hmax.
  subst cdf. rewrite derived_frame_rows in Hr'.
  apply in_map_iff in Hr' as (r0 & <- & _). simpl in *. lia.
Qed.

(** The theorem applied to the three-record example document: the texts
    are 100%, 80% and 55%. *)
Lemma labels_example :
  exists cdf,
    run (cleaned_dataframe_data (init "gantt")) (disk gantt_doc)
    = (Ok cdf, disk gantt_doc) /\
    exists fig,
      figures (snd (run (plot (init "gantt")) (disk gantt_doc)))
      = fig :: figures (disk gantt_doc) /\
      length (patches fig) = (2 * length cdf)%nat /\
      length (texts fig) = length cdf /\
      Forall2 (fun r t =>
                 (exists digits,
                     text_s t = digits +:+ "%" /\
                     option_map Z.of_int (NilZero.int_of_string digits)
                     = Some (int64_val (complete (rec r)))) /\
                 text_va t = "center"%string /\
                 text_y t = uid r /\
                 text_y t = bar_y (layer_A r) /\
                 text_y t = bar_y (layer_B r) /\
                 text_x t = (inject_Z (end_num r)
                             + inject_Z (series_max (map start_end (rows cdf))) * 0.01)%Q /\
                 ((exists r', In r' (rows cdf) /\ start (rec r') <= end_ (rec r')) ->
                  (inject_Z (end_num r) <= text_x t)%Q))
              (rows cdf) (texts fig).
Proof.
  eexists. split; [vm_compute; reflexivity|].
  apply (labels_follow_rows (init "gantt") (disk gantt_doc) (disk gantt_doc)).
  - vm_compute. reflexivity.
  - vm_compute. discriminate.
  - vm_compute. discriminate.
Defined.

Example label_texts_of_the_example :
  match figures (snd (run (plot (init "gantt")) (disk gantt_doc))) with
  | fig :: _ => map text_s (texts fig)
  | [] => []
  end = ["100%"; "80%"; "55%"]%string.
Proof. vm_compute. reflexivity. Qed.

(** X9: [plot] never closes or changes a figure that was open before the
    call.  When the data cannot be loaded, or the figure size is
    negative, it opens none and leaves the world as it was; otherwise it
    leaves exactly one new figure in front of the old ones, also when a
    later step raises. *)
Theorem plot_keeps_open_figures `{SV : SortValues} `{BE : Backend}
    (self : GanttHelper) (w : world) :
  (exists e,
      run (cleaned_dataframe_data self) w = (Raise e, w) /\
      run (plot self) w = (Raise e, w)) \/
  (exists cdf,
      run (cleaned_dataframe_data self) w = (Ok cdf, w) /\
      ((fst (fig_size self) < 0)%Q \/ (snd (fig_size self) < 0)%Q) /\
      run (plot self) w = (Raise ValueError, w)) \/
  (exists cdf fig,
      run (cleaned_dataframe_data self) w = (Ok cdf, w) /\
      (0 <= fst (fig_size self))%Q /\ (0 <= snd (fig_size self))%Q /\
      figures (snd (run (plot self) w)) = fig :: figures w /\
      figsize fig = fig_size self /\
      patches fig = map layer_B (rows cdf) ++ map layer_A (rows cdf)).
Proof.
  pose proof (cleaned_dataframe_data_world self w) as Hw.
  destruct (run (cleaned_dataframe_data self) w) as [[cdf|e] w1] eqn:Hclean;
    simpl in Hw; subst w1.
  - right. destruct (figsize_ok (fig_size self)) eqn:Hsize.
    + right. destruct (plot_bars self w cdf Hclean Hsize)
        as (fig & Hfig & Hfs & _ & Hp & _).
      unfold figsize_ok in Hsize. apply andb_prop in Hsize as [H1 H2].
      apply Qle_bool_iff in H1, H2.
      exists cdf, fig. auto 8.
    + left. exists cdf. split; [reflexivity|]. split.
      * unfold figsize_ok in Hsize. apply andb_false_iff in Hsize as [H|H];
          [left|right]; apply Qnot_le_lt; intros Hle;
          apply Qle_bool_iff in Hle; congruence.
      * rewrite (plot_run self w cdf Hclean). cbv zeta. now rewrite Hsize.
  - left. exists e. split; [reflexivity|].
    apply plot_raise. now rewrite Hclean.
Qed.

(** ** Time spans pandas cannot hold *)

Lemma derive_out_of_bounds (df : frame record) (r : record) :
  In r (rows df) ->
  ~ (in_ns_range (start r - series_min (map start (rows df))) = true /\
     in_ns_range (end_ r - start r) = true) ->
  derive df (series_min (map start (rows df))) r = Raise OutOfBoundsTimedelta.
Proof.
  intros Hin Hnot. unfold derive, timedelta_days.
  destruct (in_ns_range (start r - _)); [|reflexivity].
  destruct (in_ns_range (end_ r - start r)); [|reflexivity].
  exfalso. now apply Hnot.
Qed.

Lemma derive_all_out_of_bounds (df : frame record) (l : frame record) :
  (forall ir, In ir l -> In (snd ir) (rows df)) ->
  ~ Forall (fun r => in_ns_range (start r - series_min (map start (rows df))) = true /\
                     in_ns_range (end_ r - start r) = true) (rows l) ->
  result_mapM
    (fun ir => result_bind (derive df (series_min (map start (rows df))) (snd ir))
                           (fun r => Ok (fst ir, r))) l
  = Raise OutOfBoundsTimedelta.
Proof.
  induction l as [|ir t IH]; intros Hall Hnot.
  - exfalso. apply Hnot. constructor.
  - simpl.
    destruct (derive df (series_min (map start (rows df))) (snd ir)) as [rw|e] eqn:Hd.
    + apply derive_inv in Hd as (_ & H1 & H2); [|apply Hall; now left].
      simpl. rewrite IH; [reflexivity| |].
      * intros ir' Hin. apply Hall. now right.
      * intros Ht. apply Hnot. unfold rows. simpl. constructor; [now split|exact Ht].
    + simpl. f_equal.
      destruct (in_ns_range (start (snd ir) - series_min (map start (rows df)))) eqn:H1;
        [destruct (in_ns_range (end_ (snd ir) - start (snd ir))) eqn:H2|].
      * rewrite derive_ok in Hd; [discriminate|apply Hall; now left|exact H1|exact H2].
      * rewrite derive_out_of_bounds in Hd;
          [congruence|apply Hall; now left|intros [_ H]; congruence].
      * rewrite derive_out_of_bounds in Hd;
          [congruence|apply Hall; now left|intros [H _]; congruence].
Qed.

(** X15: pandas holds a time span in nanoseconds and has room for 106751
    days.  When some task starts more than that after the earliest start,
    or is itself longer than that, there is no cleaned frame: [plot] raises
    [OutOfBoundsTimedelta] before a figure is opened and leaves the world
    as it was. *)
Theorem plot_refuses_long_spans `{SV : SortValues} `{BE : Backend}
    (self : GanttHelper) (w : world) (df : frame record) (r : record) :
  run (raw_dataframe_data self) w = (Ok df, w) ->
  In r (rows df) ->
  106751 < start r - series_min (map start (rows df)) \/
  106751 < end_ r - start r \/ end_ r - start r < -106751 ->
  run (cleaned_dataframe_data self) w = (Raise OutOfBoundsTimedelta, w) /\
  run (plot self) w = (Raise OutOfBoundsTimedelta, w).
Proof.
  intros Hraw Hr Hlong.
  assert (Hc : run (cleaned_dataframe_data self) w = (Raise OutOfBoundsTimedelta, w)).
  { unfold run in *. unfold cleaned_dataframe_data, bind. rewrite Hraw.
    destruct df as [|ir0 df0] eqn:Hdf; [destruct Hr|]. rewrite <- Hdf in *.
    unfold lift. rewrite derive_all_out_of_bounds; [reflexivity| |].
    - intros ir Hin. unfold rows. now apply in_map.
    - intros Hfit. rewrite List.Forall_forall in Hfit.
      destruct (Hfit r Hr) as [H1 H2].
      apply in_ns_range_bounds in H1, H2. lia. }
  split; [exact Hc|]. apply plot_raise. now rewrite Hc.
Qed.

(** The theorem applied to a task that runs from 1700 to 2200. *)
Lemma plot_refuses_long_spans_example :
  exists df r,
    run (raw_dataframe_data (init "gantt")) (disk centuries_doc)
    = (Ok df, disk centuries_doc) /\
    rows df = [r] /\
    end_ r - start r = 182621 /\
    run (cleaned_dataframe_data (init "gantt")) (disk centuries_doc)
    = (Raise OutOfBoundsTimedelta, disk centuries_doc) /\
    run (plot (init "gantt")) (disk centuries_doc)
    = (Raise OutOfBoundsTimedelta, disk centuries_doc).
Proof.
  eexists. eexists. split; [vm_compute; reflexivity|].
  split; [reflexivity|]. split; [reflexivity|].
  eapply (plot_refuses_long_spans (init "gantt") (disk centuries_doc)).
  - vm_compute. reflexivity.
  - left. reflexivity.
  - right. left. vm_compute. reflexivity.
Defined.

(** ** What [plot] writes *)

Lemma mkdir_chain_files (chain : list path) (fsys : filesystem) :
  files (snd (mkdir_chain chain fsys)) = files fsys.
Proof.
  revert fsys; induction chain as [|p rest IH]; intros fsys; [reflexivity|].
  cbn [mkdir_chain]. destruct (files fsys !! p); [reflexivity|].
  destruct (dir_exists fsys p); rewrite IH; reflexivity.
Qed.

Lemma makedirs_files (name : string) (w : world) :
  files (fs (snd (makedirs name w))) = files (fs w).
Proof.
  unfold makedirs.
  pose proof (mkdir_chain_files (prefixes (parse_path name)) (fs w)) as Hm.
  destruct (mkdir_chain _ _) as [r fsys]. exact Hm.
Qed.

Section Suffix.
Variables (t e : string).
Hypothesis t_no_slash : has_slash t = false.
Hypothesis t_long : (2 <= String.length t)%nat.
Hypothesis t_extension : forall cur, extension_from cur t = Some e.

Lemma extension_from_suffix (x : string) (cur : option string) :
  extension_from cur (x +:+ t) = Some e.
Proof.
  revert cur; induction x as [|c x IH]; intros cur; [apply t_extension|].
  rewrite append_cons. cbn [extension_from].
  destruct (Ascii.eqb c "."); apply IH.
Qed.

Lemma suffix_neq (cur s : string) : (String.length s < 2)%nat -> cur +:+ t <> s.
Proof.
  intros Hs Heq. apply (f_equal String.length) in Heq.
  rewrite length_append in Heq. lia.
Qed.

Lemma last_components_suffix (s cur : string) :
  exists x, last (components_from cur (s +:+ t)) = Some (x +:+ t).
Proof.
  revert cur; induction s as [|c s IH]; intros cur.
  - exists cur. change (EmptyString +:+ t) with t.
    rewrite components_from_name; [reflexivity|exact t_no_slash| |];
      apply suffix_neq; simpl; lia.
  - rewrite append_cons. cbn [components_from].
    destruct (is_slash c); [|apply IH].
    destruct (IH EmptyString) as [x Hx]. exists x.
    now rewrite last_app, Hx.
Qed.

(** The last component of a name that ends in the suffix ends in it too,
    so the name has the extension of the suffix. *)
Lemma extension_parse_path_suffix (s : string) :
  extension (parse_path (s +:+ t)) = Some e.
Proof.
  unfold extension, parse_path.
  destruct (last_components_suffix s EmptyString) as [x Hx].
  rewrite last_app, Hx. apply extension_from_suffix.
Qed.
End Suffix.

Lemma extension_png_name (s : string) :
  extension (parse_path (s +:+ ".png")) = Some "png"%string.
Proof. apply extension_parse_path_suffix; [reflexivity|simpl; lia|reflexivity]. Qed.

Lemma extension_toml_name (s : string) :
  extension (parse_path (s +:+ ".toml")) = Some "toml"%string.
Proof. apply extension_parse_path_suffix; [reflexivity|simpl; lia|reflexivity]. Qed.

Lemma output_path_name (self : GanttHelper) (w w1 : world) (p : string) :
  output_path self w = (Ok p, w1) -> exists x, p = x +:+ ".png".
Proof.
  unfold output_path. destruct (truthy (dir self)).
  - unfold bind.
    destruct (match dir self with Str d => makedirs d | Bool _ => _ end w)
      as [[[]|e] w2]; [|discriminate].
    unfold ret. intros [= <- <-].
    exists (fmt (dir self) +:+ "/" +:+ fmt (fname self)).
    now rewrite !append_assoc.
  - unfold ret. intros [= <- <-]. now exists (fmt (fname self)).
Qed.

Lemma output_path_files (self : GanttHelper) (w : world) :
  files (fs (snd (output_path self w))) = files (fs w).
Proof.
  unfold output_path. destruct (truthy (dir self)); [|reflexivity].
  unfold bind. destruct (dir self) as [d|b]; [|reflexivity].
  pose proof (makedirs_files d w) as Hm.
  destruct (makedirs d w) as [[[]|e] w2]; exact Hm.
Qed.

Lemma savefig_only_png `{BE : Backend} (x bbox : string) (w : world) (p : path) :
  extension p <> Some "png"%string ->
  files (fs (snd (savefig (x +:+ ".png") bbox w))) !! p = files (fs w) !! p.
Proof.
  intros Hp. unfold savefig. rewrite extension_png_name.
  destruct (render_error _); [reflexivity|].
  case_bool_decide; [reflexivity|].
  destruct (file_in_the_way _ _); [reflexivity|].
  destruct (negb _); [reflexivity|].
  cbn [snd fs files]. apply lookup_insert_ne.
  intros <-. apply Hp, extension_png_name.
Qed.

Lemma save_step_only_png `{BE : Backend} (self : GanttHelper) (w : world) (p : path) :
  extension p <> Some "png"%string ->
  files (fs (snd (run (save_step self) w))) !! p = files (fs w) !! p.
Proof.
  intros Hp. unfold run, save_step.
  destruct (truthy (fname self)); [|reflexivity].
  unfold bind. pose proof (output_path_files self w) as Hf.
  destruct (output_path self w) as [[name|e] w1] eqn:Hout; simpl in Hf;
    [|simpl; now rewrite Hf].
  destruct (output_path_name self w w1 name Hout) as [x ->].
  rewrite savefig_only_png by exact Hp. now rewrite Hf.
Qed.

(** X10: the only file [plot] ever writes has the extension [png]: in
    every outcome a path with another extension (or none) has the content
    it had before.  In particular the source file [<src>.toml] is never
    overwritten, whatever [dir] and [fname] are. *)
Theorem plot_writes_only_png `{SV : SortValues} `{BE : Backend}
    (self : GanttHelper) (w : world) :
  (forall p, extension p <> Some "png"%string ->
     files (fs (snd (run (plot self) w))) !! p = files (fs w) !! p) /\
  files (fs (snd (run (plot self) w))) !! parse_path (src self +:+ ".toml")
  = files (fs w) !! parse_path (src self +:+ ".toml").
Proof.
  assert (Hframe : forall p, extension p <> Some "png"%string ->
             files (fs (snd (run (plot self) w))) !! p = files (fs w) !! p).
  { intros p Hp.
    pose proof (cleaned_dataframe_data_world self w) as Hw.
    destruct (run (cleaned_dataframe_data self) w) as [[cdf|e] w1] eqn:Hclean;
      simpl in Hw; subst w1.
    - rewrite (plot_run self w cdf Hclean). cbv zeta.
      destruct (figsize_ok _); [|reflexivity].
      destruct (np_arange _ _) as [ticks|e]; [|reflexivity].
      destruct (date_range _ _ _) as [stamps|e]; [|reflexivity].
      destruct (Nat.eqb _ _); [|reflexivity].
      now rewrite save_step_only_png.
    - rewrite (plot_raise self w e) by (now rewrite Hclean). reflexivity. }
  split; [exact Hframe|].
  apply Hframe. rewrite extension_toml_name. discriminate.
Qed.

(** ** Saving without a directory, and with a directory that is no name *)



(** With [fname = True] the file is [True.png] and the title is
    ["True"]. *)
Example true_as_a_file_name :
  let self := mk_GanttHelper "gantt" (Bool false) (Bool true) true 10 (20, 5)%Q in
  exists fig,
    run (plot self) (disk gantt_doc)
    = (Ok tt, mk_world (mk_fs ∅ (<[ ["True.png"%string] := ImageFile "png" "tight" fig ]>
                                   (files (fs (disk gantt_doc))))) [fig]) /\
    title fig = "True"%string.
Proof. cbv zeta. eexists. split; [vm_compute; reflexivity|]. reflexivity. Qed.

(** X12: [dir = True] passes the truth test of [output_path] but is no
    path: with a file name configured, once the chart is drawn, [plot]
    raises [TypeError] from [os.makedirs]; the figure stays open and
    nothing is written. *)
Theorem plot_dir_true_raises `{SV : SortValues} `{BE : Backend}
    (self : GanttHelper) (w w1 : world) :
  dir self = Bool true ->
  truthy (fname self) = true ->
  run (draw_chart self) w = (Ok tt, w1) ->
  run (plot self) w
  = (Raise (TypeError "expected str, bytes or os.PathLike object, not bool"), w1) /\
  fs w1 = fs w /\
  exists fig, figures w1 = fig :: figures w.
Proof.
  intros Hdir Hname Hdraw.
  destruct (draw_chart_ok_inv self w w1 Hdraw)
    as (cdf & ticks & stamps & _ & _ & _ & _ & _ & Hw1).
  split.
  - rewrite plot_stages, Hdraw. unfold run, save_step. rewrite Hname.
    unfold bind, output_path. rewrite Hdir. reflexivity.
  - subst w1. split; [reflexivity|]. eexists. reflexivity.
Qed.

(** The theorem applied to [dir = True], [fname = "Gantt"]. *)
Lemma plot_dir_true_example :
  exists w1,
    run (draw_chart gantt_to_true) (disk gantt_doc) = (Ok tt, w1) /\
    run (plot gantt_to_true) (disk gantt_doc)
    = (Raise (TypeError "expected str, bytes or os.PathLike object, not bool"), w1) /\
    fs w1 = fs (disk gantt_doc) /\
    exists fig, figures w1 = fig :: figures (disk gantt_doc).
Proof.
  eexists. split; [vm_compute; reflexivity|].
  apply (plot_dir_true_raises gantt_to_true (disk gantt_doc)).
  - reflexivity.
  - reflexivity.
  - vm_compute. reflexivity.
Defined.

(** ** Calling [plot] again *)




